(** * ol-data-pipelines: the edX API client and the MITx BigQuery solids

    A shallow embedding of

      - [src/ol_data_pipelines/edx/api_client.py]
        ([get_access_token], [_get_username], [_fetch_with_auth],
        [get_edx_course_ids]) and
      - [src/ol_data_pipelines/mitx_bigquery/solids.py]
        ([download_user_data], [get_datasets]),

    together with the properties the specification states about them.

    The HTTP server, the warehouse, the clock and the object store are the
    environment of the code; they are explicit arguments here, and every
    effect of the code on them (requests issued, files written, events
    yielded, exceptions raised) is part of the value a function returns. *)

From Stdlib Require Import ZArith.
From stdpp Require Import gmap strings list fin_maps pretty.

Open Scope Z_scope.
Open Scope string_scope.
Open Scope list_scope.

(* ===================================================================== *)
(** * Strings as Python uses them *)
(* ===================================================================== *)

Module PyStr.

(** [s.endswith(suffix)]: the last [len(suffix)] characters of [s] are
    [suffix]. *)
Definition endswith (s suffix : string) : bool :=
  let n := String.length s in
  let m := String.length suffix in
  (m <=? n)%nat && String.eqb (String.substring (n - m) m s) suffix.

(** [s.startswith(prefix)]. *)
Definition startswith (s pre : string) : bool :=
  String.eqb (String.substring 0 (String.length pre) s) pre.

(** [posixpath.join(a, b)] for two components: an absolute [b] discards
    [a]; otherwise a separator is inserted unless [a] is empty or already
    ends with one. *)
Definition path_join (a b : string) : string :=
  if startswith b "/" then b
  else if String.eqb a "" || endswith a "/" then a +:+ b
  else a +:+ "/" +:+ b.

End PyStr.

(* ===================================================================== *)
(** * The edX API client *)
(* ===================================================================== *)

Module ApiClient.

(** ** JSON values, as [response.json()] returns them *)

#[warnings="-register-all"]
Inductive json : Type :=
| JNull
| JBool (b : bool)
| JNum (n : Z)
| JStr (s : string)
| JArr (items : list json)
| JObj (members : list (string * json)).

(** Python truthiness, which is what [while next_page:] tests. *)
Definition truthy (v : json) : bool :=
  match v with
  | JNull => false
  | JBool b => b
  | JNum n => negb (n =? 0)%Z
  | JStr s => negb (String.eqb s "")
  | JArr items => match items with [] => false | _ => true end
  | JObj members => match members with [] => false | _ => true end
  end.

Inductive exn : Type :=
| HTTPStatusError (status : Z)   (* raised by [raise_for_status] *)
| TransportError                 (* the request itself failed *)
| JSONDecodeError                (* [response.json()] on a non-JSON body *)
| KeyError (key : string)
| TypeError
| AttributeError.

Fixpoint assoc (k : string) (members : list (string * json)) : option json :=
  match members with
  | [] => None
  | (k', v) :: rest => if String.eqb k k' then Some v else assoc k rest
  end.

(** [v[k]] with a string key. *)
Definition subscript (v : json) (k : string) : exn + json :=
  match v with
  | JObj members =>
      match assoc k members with
      | Some x => inr x
      | None => inl (KeyError k)
      end
  | _ => inl TypeError
  end.

(** [v.get(k)]: [None] when the key is absent; only a dict has [get]. *)
Definition dict_get (v : json) (k : string) : exn + json :=
  match v with
  | JObj members =>
      match assoc k members with
      | Some x => inr x
      | None => inr JNull
      end
  | _ => inl AttributeError
  end.

(** ** Requests and responses *)

Inductive http_method : Type := GET | POST.

Record Request : Type := mkRequest {
  method : http_method;
  url : string;
  headers : list (string * string);
  params : list (string * json);   (* query parameters, before encoding *)
  data : list (string * string)    (* form-encoded body *)
}.

Record Response : Type := mkResponse {
  status_code : Z;
  body : option json               (* [None]: the body is not JSON *)
}.

(** The server answers a request knowing the requests that came before
    it (oldest first); [None] is a failure of the transport. *)
Definition Server : Type := list Request -> Request -> option Response.

(** [response.raise_for_status()]: client and server errors raise. *)
Definition is_error (status : Z) : bool :=
  (400 <=? status)%Z && (status <? 600)%Z.

Definition raise_for_status (r : Response) : exn + unit :=
  if is_error (status_code r) then inl (HTTPStatusError (status_code r))
  else inr tt.

Definition response_json (r : Response) : exn + json :=
  match body r with
  | Some v => inr v
  | None => inl JSONDecodeError
  end.

(** ** Computations that talk to the server

    The state is the log of requests issued so far. *)

Definition M (A : Type) : Type := list Request -> list Request * (exn + A).

Definition ret {A} (a : A) : M A := fun log => (log, inr a).

Definition bind {A B} (m : M A) (k : A -> M B) : M B :=
  fun log =>
    match m log with
    | (log', inl e) => (log', inl e)
    | (log', inr a) => k a log'
    end.

Definition lift {A} (r : exn + A) : M A := fun log => (log, r).

Notation "'do' x <- m ; k" := (bind m (fun x => k))
  (at level 10, x name, m at level 100, k at level 200).
Notation "'exec' m ; k" := (bind m (fun _ => k))
  (at level 10, m at level 100, k at level 200).

Section Client.

Variable srv : Server.

Definition send (r : Request) : M Response :=
  fun log =>
    match srv log r with
    | Some resp => (log ++ [r], inr resp)
    | None => (log ++ [r], inl TransportError)
    end.

Definition token_request (client_id client_secret edx_url token_type : string)
  : Request :=
  {| method := POST;
     url := edx_url +:+ "/oauth2/access_token";
     headers := [];
     params := [];
     data := [("grant_type", "client_credentials");
              ("client_id", client_id);
              ("client_secret", client_secret);
              ("token_type", token_type)] |}.

Definition get_access_token
    (client_id client_secret edx_url token_type : string) : M json :=
  do response <- send (token_request client_id client_secret edx_url token_type);
  exec lift (raise_for_status response);
  do v <- lift (response_json response);
  lift (subscript v "access_token").

Definition identity_request (edx_url access_token : string) : Request :=
  {| method := GET;
     url := edx_url +:+ "/api/user/v1/me";
     headers := [("Authorization", "JWT " +:+ access_token)];
     params := [];
     data := [] |}.

Definition _get_username (edx_url access_token : string) : M json :=
  do response <- send (identity_request edx_url access_token);
  exec lift (raise_for_status response);
  do v <- lift (response_json response);
  lift (subscript v "username").

Definition courses_request (edx_url access_token : string) (username : json)
  : Request :=
  {| method := GET;
     url := edx_url +:+ "/api/courses/v1/courses/";
     headers := [("Authorization", "JWT " +:+ access_token)];
     params := [("username", username)];
     data := [] |}.

Definition _fetch_with_auth (edx_url access_token : string) : M json :=
  do username <- _get_username edx_url access_token;
  do response <- send (courses_request edx_url access_token username);
  exec lift (raise_for_status response);
  lift (response_json response).

(** ** The generator [get_edx_course_ids]

    A generator object is a resumable computation.  It is either not
    yet started, suspended at one of its two [yield]s (both resume at
    the test of [while next_page:], so the only live local is
    [next_page]), or finished. *)

Inductive GenState : Type :=
| GenCreated
| GenSuspended (next_page : json)
| GenFinished.

(** One [next(gen)]: [Some v] is a yielded value, [None] is
    [StopIteration]. *)
Definition gen_next (edx_url access_token : string) (g : GenState)
  : M (GenState * option json) :=
  match g with
  | GenCreated =>
      do response_data <- _fetch_with_auth edx_url access_token;
      do course_data <- lift (subscript response_data "results");
      do pagination <- lift (subscript response_data "pagination");
      do next_page <- lift (dict_get pagination "next");
      ret (GenSuspended next_page, Some course_data)
  | GenSuspended next_page =>
      if truthy next_page then
        do response_data <- _fetch_with_auth edx_url access_token;
        do pagination <- lift (subscript response_data "pagination");
        do next_page' <- lift (dict_get pagination "next");
        do results <- lift (subscript response_data "results");
        ret (GenSuspended next_page', Some results)
      else ret (GenFinished, None)
  | GenFinished => ret (GenFinished, None)
  end.

(** How a full consumption of the generator ([for page in gen], or
    [list(gen)]) ends. *)
Inductive Outcome : Type :=
| Exhausted               (* StopIteration *)
| Raised (e : exn)
| StillRunning.           (* the consumer gave up: fuel ran out *)

Record Consumed : Type := mkConsumed {
  yielded : list json;
  outcome : Outcome;
  requests : list Request
}.

Fixpoint consume_from (fuel : nat) (edx_url access_token : string)
    (g : GenState) (log : list Request) : Consumed :=
  match fuel with
  | O => {| yielded := []; outcome := StillRunning; requests := log |}
  | S fuel' =>
      match gen_next edx_url access_token g log with
      | (log', inl e) =>
          {| yielded := []; outcome := Raised e; requests := log' |}
      | (log', inr (_, None)) =>
          {| yielded := []; outcome := Exhausted; requests := log' |}
      | (log', inr (g', Some v)) =>
          let rest := consume_from fuel' edx_url access_token g' log' in
          {| yielded := v :: yielded rest;
             outcome := outcome rest;
             requests := requests rest |}
      end
  end.

(** The generator object: the arguments of the call, and where its body
    stands. *)
Record Generator : Type := mkGenerator {
  gen_edx_url : string;
  gen_access_token : string;
  gen_frame : GenState
}.

(** Calling the generator function runs none of its body. *)
Definition get_edx_course_ids (edx_url access_token : string) : Generator :=
  {| gen_edx_url := edx_url;
     gen_access_token := access_token;
     gen_frame := GenCreated |}.

(** [list(gen)], as far as [fuel] calls of [next] go. *)
Definition consume (fuel : nat) (gen : Generator) (log : list Request)
  : Consumed :=
  consume_from fuel (gen_edx_url gen) (gen_access_token gen) (gen_frame gen)
    log.

End Client.

(** ** Vocabulary of the properties *)

Definition is_identity_request (edx_url : string) (r : Request) : bool :=
  String.eqb (url r) (edx_url +:+ "/api/user/v1/me").

Definition is_courses_request (edx_url : string) (r : Request) : bool :=
  String.eqb (url r) (edx_url +:+ "/api/courses/v1/courses/").

(** The identity lookups and the page requests of a log, in order. *)
Definition identity_requests (edx_url : string) (log : list Request)
  : list Request :=
  List.filter (is_identity_request edx_url) log.

Definition page_requests (edx_url : string) (log : list Request)
  : list Request :=
  List.filter (is_courses_request edx_url) log.

(** [identity_of p u]: [p] is a response of the identity endpoint that
    the client reads as the username [u]. *)
Definition identity_of (p : Response) (username : json) : Prop :=
  is_error (status_code p) = false /\
  exists members,
    body p = Some (JObj members) /\ assoc "username" members = Some username.

(** [page_of p results next]: [p] is a response of the list endpoint that
    the client reads as a page with these results and this cursor; an
    absent cursor reads as [JNull], like an explicit [null]. *)
Definition page_of (p : Response) (results next : json) : Prop :=
  is_error (status_code p) = false /\
  exists members pagination,
    body p = Some (JObj members) /\
    assoc "results" members = Some results /\
    assoc "pagination" members = Some (JObj pagination) /\
    next = match assoc "next" pagination with Some c => c | None => JNull end.

(** A server that answers every identity lookup with [who] and the k-th
    request to the list endpoint with the k-th response of [pages],
    whatever the request carries. *)
Definition paged_server (edx_url : string) (who : Response)
    (pages : list Response) : Server :=
  fun history r =>
    if is_identity_request edx_url r then Some who
    else if is_courses_request edx_url r
         then pages !! length (page_requests edx_url history)
         else None.

(** The requests of a sequence of successful page fetches, one fetch per
    username the identity endpoint returned. *)
Definition fetch_trace (edx_url access_token : string) (usernames : list json)
  : list Request :=
  flat_map (fun u => [identity_request edx_url access_token;
                      courses_request edx_url access_token u])
           usernames.

(** The username [u] came from an answer of the identity endpoint. *)
Definition resolved (srv : Server) (edx_url access_token : string) (u : json)
  : Prop :=
  exists h p,
    srv h (identity_request edx_url access_token) = Some p /\ identity_of p u.

(** The identity endpoint answers the lookup of this session the same way
    every time. *)
Definition stable_identity (srv : Server) (edx_url access_token : string)
  : Prop :=
  forall h1 h2,
    srv h1 (identity_request edx_url access_token)
    = srv h2 (identity_request edx_url access_token).

(** ** Concrete servers for the examples *)

Definition who_is (username : string) : Response :=
  {| status_code := 200;
     body := Some (JObj [("username", JStr username)]) |}.

(** A page of the list endpoint; [next = None] leaves the cursor out. *)
Definition page (results : list json) (next : option json) : Response :=
  {| status_code := 200;
     body :=
       Some (JObj [("results", JArr results);
                   ("pagination",
                    JObj (match next with
                          | Some c => [("next", c)]
                          | None => []
                          end))]) |}.

Definition course (course_id : string) : json :=
  JObj [("course_id", JStr course_id)].

(** Page 1 carries the cursor "X"; pages 2 and 3 carry none. *)
Definition three_pages : list Response :=
  [ page [course "a"] (Some (JStr "X"));
    page [course "b"] None;
    page [course "c"] None ].

(** An identity endpoint that answers the first lookup of a session with
    one username and every later lookup with another. *)
Definition renaming_server (edx_url : string) (pages : list Response)
  : Server :=
  fun history r =>
    if is_identity_request edx_url r
    then Some (who_is (match history with [] => "alice" | _ => "bob" end))
    else if is_courses_request edx_url r
         then pages !! length (page_requests edx_url history)
         else None.

(** A token endpoint that answers with a fixed response. *)
Definition token_server (answer : Response) : Server :=
  fun _ _ => Some answer.

(** ** Further vocabulary: servers and cursors *)

(** A server whose answer depends on the request alone, not on what was
    asked before. *)
Definition stateless_server (answer : Request -> option Response) : Server :=
  fun _ r => answer r.

(** The cursors of a sequence of pages that ends at its last page: every
    cursor but the last is truthy, the last one is not. *)
Fixpoint cursor_chain (cursors : list json) : Prop :=
  match cursors with
  | [] => False
  | c :: rest =>
      match rest with
      | [] => truthy c = false
      | _ :: _ => truthy c = true /\ cursor_chain rest
      end
  end.

(** A generator that is about to fetch: not started, or suspended on a
    truthy cursor. *)
Definition about_to_fetch (g : GenState) : Prop :=
  g = GenCreated \/ exists c, g = GenSuspended c /\ truthy c = true.

(** Every request carries the caller's token in the same header, has no
    body, and is a GET. *)
Definition authenticated_get (access_token : string) (r : Request) : Prop :=
  method r = GET /\
  headers r = [("Authorization", "JWT " +:+ access_token)] /\
  data r = [].

(** A stateless catalog: the identity endpoint knows "alice", and every
    other request gets the same page, whose cursor is "X". *)
Definition looping_catalog (edx_url : string) (r : Request)
  : option Response :=
  if is_identity_request edx_url r then Some (who_is "alice")
  else Some (page [course "a"] (Some (JStr "X"))).

(** A page the server failed to produce. *)
Definition server_error : Response :=
  {| status_code := 500; body := None |}.

(** A successful answer that has [results] but no [pagination]. *)
Definition page_without_pagination : Response :=
  {| status_code := 200;
     body := Some (JObj [("results", JArr [course "a"])]) |}.

End ApiClient.

(* ===================================================================== *)
(** * The MITx BigQuery solids *)
(* ===================================================================== *)

Module Solids.

Import PyStr.

Inductive exn : Type :=
| NotFound                       (* google.cloud.exceptions.NotFound *)
| OverflowError                  (* datetime arithmetic out of range *)
| WarehouseError (msg : string)  (* any other failure of the warehouse *)
| StorageError (msg : string).   (* a failure of the object store *)

Definition is_not_found (e : exn) : bool :=
  match e with NotFound => true | _ => false end.

(** ** Time

    An aware UTC [datetime] is the number of microseconds since
    0001-01-01T00:00:00, the smallest value the type has; the largest is
    the last microsecond of year 9999.  A [timedelta] is a number of
    microseconds. *)

Definition microseconds_per_day : Z := 86400000000.
Definition datetime_end : Z := 3652059 * microseconds_per_day.
Definition timedelta_max_days : Z := 999999999.

(** [datetime.timedelta(days=d)]. *)
Definition timedelta_days (d : Z) : exn + Z :=
  if (Z.abs d <=? timedelta_max_days)%Z then inr (d * microseconds_per_day)%Z
  else inl OverflowError.

(** [t - delta] on a [datetime]. *)
Definition datetime_sub (t delta : Z) : exn + Z :=
  let r := (t - delta)%Z in
  if (0 <=? r)%Z && (r <? datetime_end)%Z then inr r else inl OverflowError.

(** ** The warehouse *)

Record Dataset : Type := mkDataset { dataset_id : string }.

Record SchemaField : Type := mkSchemaField {
  name : string;
  field_type : string
}.

Record Table : Type := mkTable {
  reference : string;            (* project.dataset.table *)
  schema : list SchemaField;
  modified : Z                   (* last-modified datetime *)
}.

Inductive Cell : Type :=
| CNull
| CBool (b : bool)
| CInt (n : Z)
| CStr (s : string).

Definition Row : Type := list Cell.

(** What [list_rows] returns once its rows have been fetched; a failure
    of the listing or of the conversion to Arrow is a failure of
    [read_rows] below. *)
Record RowIterator : Type := mkRowIterator {
  selected_fields : list SchemaField;
  fetched : list Row
}.

(** [rows.total_rows]: the number of rows of the result. *)
Definition total_rows (rows : RowIterator) : Z := Z.of_nat (length (fetched rows)).

Record ArrowTable : Type := mkArrowTable {
  arrow_schema : list SchemaField;
  arrow_rows : list Row
}.

Definition to_arrow (rows : RowIterator) : ArrowTable :=
  {| arrow_schema := selected_fields rows; arrow_rows := fetched rows |}.

(** The BigQuery client resource: a capability the solids only read
    from. *)
Record BigQueryDb : Type := mkBigQueryDb {
  project : string;
  list_datasets : exn + list Dataset;
  get_table : string -> exn + Table;
  read_rows : Table -> list SchemaField -> exn + list Row
}.

Definition list_rows (db : BigQueryDb) (t : Table) (sel : list SchemaField)
  : exn + RowIterator :=
  match read_rows db t sel with
  | inl e => inl e
  | inr rs => inr {| selected_fields := sel; fetched := rs |}
  end.

(** ** The object store *)

(** A file system handle: [open_error p] is the failure opening an output
    stream at [p] meets, if any. *)
Record FileSystem : Type := mkFileSystem {
  open_error : string -> option exn
}.

(** The files of the store, and the paths written so far, in order. *)
Record Store : Type := mkStore {
  files : gmap string ArrowTable;
  writes : list string
}.

(** ** Events a solid yields *)

Record EventMetadataEntry : Type := mkEntry {
  label : string;
  entry_description : string;
  text : string
}.

Record AssetMaterialization : Type := mkAssetMaterialization {
  description : string;
  asset_key : string;
  metadata_entries : list EventMetadataEntry
}.

Inductive Event : Type :=
| Materialized (m : AssetMaterialization)
| Output (value : string) (output_name : string).

(** ** Computations of a solid: they yield events, write to the store and
    may raise. *)

Record Run (A : Type) : Type := mkRun {
  emitted : list Event;
  final : Store;
  result : exn + A
}.
Arguments mkRun {A} _ _ _.
Arguments emitted {A} _.
Arguments final {A} _.
Arguments result {A} _.

Definition M (A : Type) : Type := Store -> Run A.

Definition ret {A} (a : A) : M A :=
  fun s => {| emitted := []; final := s; result := inr a |}.

Definition raise {A} (e : exn) : M A :=
  fun s => {| emitted := []; final := s; result := inl e |}.

Definition lift {A} (r : exn + A) : M A :=
  fun s => {| emitted := []; final := s; result := r |}.

Definition bind {A B} (m : M A) (k : A -> M B) : M B :=
  fun s =>
    let r := m s in
    match result r with
    | inl e => {| emitted := emitted r; final := final r; result := inl e |}
    | inr a =>
        let r' := k a (final r) in
        {| emitted := emitted r ++ emitted r';
           final := final r';
           result := result r' |}
    end.

Notation "'do' x <- m ; k" := (bind m (fun x => k))
  (at level 10, x name, m at level 100, k at level 200).
Notation "'exec' m ; k" := (bind m (fun _ => k))
  (at level 10, m at level 100, k at level 200).

Definition yield_ (ev : Event) : M unit :=
  fun s => {| emitted := [ev]; final := s; result := inr tt |}.

(** [with file_system.open_output_stream(p) as outfile:
       with parquet.ParquetWriter(outfile, t.schema) as writer:
         writer.write_table(t)]:
    the file at [p] is created or truncated and holds [t] alone.  A
    failure of the store is met when the stream is opened, before the file
    is touched. *)
Definition write_parquet (file_system : FileSystem) (p : string)
    (t : ArrowTable) : M unit :=
  fun s =>
    match open_error file_system p with
    | Some e => {| emitted := []; final := s; result := inl e |}
    | None =>
        {| emitted := [];
           final := {| files := <[p := t]> (files s);
                       writes := writes s ++ [p] |};
           result := inr tt |}
    end.

Fixpoint for_each {A} (body : A -> M unit) (l : list A) : M unit :=
  match l with
  | [] => ret tt
  | x :: rest => exec body x; for_each body rest
  end.

(** ** The solids *)

Record SolidExecutionContext : Type := mkContext {
  last_modified_days : Z;        (* solid_config["last_modified_days"] *)
  outputs_dir : string;          (* solid_config["outputs_dir"] *)
  bigquery_db : BigQueryDb       (* resources.bigquery_db *)
}.

(** What the solid reads from its surroundings besides its context: the
    clock and the resolution of a URI to a file system and a path. *)
Record Runtime : Type := mkRuntime {
  utcnow : Z;
  from_uri : string -> exn + (FileSystem * string)
}.

Definition fields : list string :=
  [ "user_id"; "username"; "email"; "is_staff";
    "profile_name"; "profile_meta"; "enrollment_course_id" ].

Definition modified_minimum (rt : Runtime) (context : SolidExecutionContext)
  : exn + Z :=
  match timedelta_days (last_modified_days context) with
  | inl e => inl e
  | inr delta => datetime_sub (utcnow rt) delta
  end.

Definition table_name (context : SolidExecutionContext) (dataset : Dataset)
  : string :=
  project (bigquery_db context) +:+ "." +:+ dataset_id dataset
    +:+ ".user_info_combo".

Definition desired_schema (bigquery_table : Table) : list SchemaField :=
  filter (fun column => name column ∈ fields) (schema bigquery_table).

Definition file_path (output_folder : string) (dataset : Dataset) : string :=
  path_join output_folder
    ("user_info_combo_" +:+ dataset_id dataset +:+ ".parquet").

Definition materialization (dataset : Dataset) (path : string)
    (rows : RowIterator) : AssetMaterialization :=
  {| description := "Updated course file";
     asset_key := dataset_id dataset;
     metadata_entries :=
       [ {| label := "updated_file";
            entry_description := "updated course file";
            text := path |};
         {| label := "updated_rows";
            entry_description := "number of records";
            text := pretty (total_rows rows) |} ] |}.

(** The body of [for dataset in datasets:]. *)
Definition process_dataset (context : SolidExecutionContext)
    (minimum : Z) (file_system : FileSystem) (output_folder : string)
    (dataset : Dataset) : M unit :=
  match get_table (bigquery_db context) (table_name context dataset) with
  | inl e => if is_not_found e then ret tt (* continue *) else raise e
  | inr bigquery_table =>
      if (modified bigquery_table >? minimum)%Z then
        do rows <- lift (list_rows (bigquery_db context) bigquery_table
                           (desired_schema bigquery_table));
        let arrow_table := to_arrow rows in
        let path := file_path output_folder dataset in
        exec write_parquet file_system path arrow_table;
        yield_ (Materialized (materialization dataset path rows))
      else ret tt
  end.

Definition download_user_data (rt : Runtime)
    (context : SolidExecutionContext) (datasets : list Dataset) : M unit :=
  do minimum <- lift (modified_minimum rt context);
  do target <- lift (from_uri rt (outputs_dir context));
  let file_system := fst target in
  let output_folder := snd target in
  exec for_each
         (process_dataset context minimum file_system output_folder)
         datasets;
  yield_ (Output output_folder "user_query_folder").

Definition get_datasets (context : SolidExecutionContext)
  : exn + list Dataset :=
  match list_datasets (bigquery_db context) with
  | inl e => inl e
  | inr datasets =>
      inr (filter (fun dataset => endswith (dataset_id dataset) "_latest" = true)
             datasets)
  end.

(** ** Vocabulary of the properties *)

(** The rows the loop extracts for a dataset: those of its table, when
    the table is found, is newer than [minimum] and its rows can be
    read. *)
Definition extraction (context : SolidExecutionContext) (minimum : Z)
    (dataset : Dataset) : option RowIterator :=
  match get_table (bigquery_db context) (table_name context dataset) with
  | inl _ => None
  | inr bigquery_table =>
      if (modified bigquery_table >? minimum)%Z then
        match list_rows (bigquery_db context) bigquery_table
                (desired_schema bigquery_table) with
        | inl _ => None
        | inr rows => Some rows
        end
      else None
  end.

Definition events_of (context : SolidExecutionContext) (minimum : Z)
    (output_folder : string) (dataset : Dataset) : list Event :=
  match extraction context minimum dataset with
  | Some rows =>
      [Materialized
         (materialization dataset (file_path output_folder dataset) rows)]
  | None => []
  end.

Definition store_after (context : SolidExecutionContext) (minimum : Z)
    (output_folder : string) (s : Store) (dataset : Dataset) : Store :=
  match extraction context minimum dataset with
  | Some rows =>
      {| files := <[file_path output_folder dataset := to_arrow rows]> (files s);
         writes := writes s ++ [file_path output_folder dataset] |}
  | None => s
  end.

(** The path the loop writes for a dataset, if it writes one. *)
Definition written_by (context : SolidExecutionContext) (minimum : Z)
    (output_folder : string) (dataset : Dataset) : list string :=
  match extraction context minimum dataset with
  | Some _ => [file_path output_folder dataset]
  | None => []
  end.

(** The materialization records of a run that carry this asset key. *)
Definition records_for (key : string) (events : list Event)
  : list AssetMaterialization :=
  omap (fun ev =>
          match ev with
          | Materialized m =>
              if String.eqb (asset_key m) key then Some m else None
          | Output _ _ => None
          end)
       events.

(** The writes of a run that went to this path. *)
Definition writes_to (path : string) (written : list string) : list string :=
  List.filter (String.eqb path) written.

(** Nothing but a missing table stands in the way of this dataset: the
    lookup finds the table or signals not-found, and for a table that is
    new enough the rows can be read and the output file opened. *)
Definition tolerated (context : SolidExecutionContext) (minimum : Z)
    (file_system : FileSystem) (output_folder : string) (dataset : Dataset)
  : Prop :=
  match get_table (bigquery_db context) (table_name context dataset) with
  | inl e => e = NotFound
  | inr bigquery_table =>
      if (modified bigquery_table >? minimum)%Z then
        (exists rs,
           read_rows (bigquery_db context) bigquery_table
             (desired_schema bigquery_table) = inr rs) /\
        open_error file_system (file_path output_folder dataset) = None
      else True
  end.

(** [s] has the suffix [suffix]. *)
Definition has_suffix (s suffix : string) : Prop :=
  exists p, s = p +:+ suffix.

(** ** A concrete warehouse for the examples

    Two current snapshots, of which only the second has a
    [user_info_combo] table, with 42 rows. *)

Definition run1_latest : Dataset := {| dataset_id := "run1_latest" |}.
Definition run2_latest : Dataset := {| dataset_id := "run2_latest" |}.

Definition example_table : Table :=
  {| reference := "mitx-data.run2_latest.user_info_combo";
     schema := [ {| name := "user_id"; field_type := "INTEGER" |};
                 {| name := "username"; field_type := "STRING" |};
                 {| name := "date_joined"; field_type := "TIMESTAMP" |};
                 {| name := "email"; field_type := "STRING" |} ];
     modified := 737690 * microseconds_per_day |}.

Definition example_rows : list Row :=
  replicate 42 [CInt 7; CStr "alice"; CStr "alice@example.edu"].

Definition example_db : BigQueryDb :=
  {| project := "mitx-data";
     list_datasets :=
       inr [ run1_latest;
             {| dataset_id := "run2_2019" |};
             run2_latest;
             {| dataset_id := "latest" |} ];
     get_table := fun table =>
       if String.eqb table "mitx-data.run2_latest.user_info_combo"
       then inr example_table else inl NotFound;
     read_rows := fun _ _ => inr example_rows |}.

Definition example_context : SolidExecutionContext :=
  {| last_modified_days := 3600;
     outputs_dir := "s3://bucket/mitx";
     bigquery_db := example_db |}.

Definition example_runtime (day : Z) : Runtime :=
  {| utcnow := day * microseconds_per_day;
     from_uri := fun _ =>
       inr ({| open_error := fun _ => None |}, "bucket/mitx") |}.

Definition empty_store : Store := {| files := ∅; writes := [] |}.

(** ** The pipeline *)

(** [mitx_bigquery_pipeline]: the output of [get_datasets] is the input of
    [download_user_data]; a solid whose upstream solid failed is not
    run. *)
Definition mitx_bigquery_pipeline (rt : Runtime)
    (context : SolidExecutionContext) : M unit :=
  do datasets <- lift (get_datasets context);
  download_user_data rt context datasets.

(** ** Further vocabulary *)

(** The failure an iteration of the loop meets at a dataset, if any. *)
Definition failure (context : SolidExecutionContext) (minimum : Z)
    (file_system : FileSystem) (output_folder : string) (dataset : Dataset)
  : option exn :=
  match get_table (bigquery_db context) (table_name context dataset) with
  | inl e => if is_not_found e then None else Some e
  | inr bigquery_table =>
      if (modified bigquery_table >? minimum)%Z then
        match read_rows (bigquery_db context) bigquery_table
                (desired_schema bigquery_table) with
        | inl e => Some e
        | inr _ => open_error file_system (file_path output_folder dataset)
        end
      else None
  end.

(** The table of a dataset is missing, or not newer than [minimum]. *)
Definition missing_or_stale (context : SolidExecutionContext) (minimum : Z)
    (dataset : Dataset) : Prop :=
  match get_table (bigquery_db context) (table_name context dataset) with
  | inl e => e = NotFound
  | inr bigquery_table => (modified bigquery_table <= minimum)%Z
  end.


(** The same context with another [last_modified_days]. *)
Definition with_days (days : Z) (context : SolidExecutionContext)
  : SolidExecutionContext :=
  {| last_modified_days := days;
     outputs_dir := outputs_dir context;
     bigquery_db := bigquery_db context |}.

(** A warehouse in which the table of [run3_latest] may not be read. *)
Definition run3_latest : Dataset := {| dataset_id := "run3_latest" |}.
Definition run4_latest : Dataset := {| dataset_id := "run4_latest" |}.

Definition guarded_db : BigQueryDb :=
  {| project := "mitx-data";
     list_datasets := inr [run2_latest; run3_latest; run4_latest];
     get_table := fun table =>
       if String.eqb table "mitx-data.run3_latest.user_info_combo"
       then inl (WarehouseError "403 Forbidden")
       else inr example_table;
     read_rows := fun _ _ => inr example_rows |}.

Definition guarded_context : SolidExecutionContext :=
  {| last_modified_days := 3600;
     outputs_dir := "s3://bucket/mitx";
     bigquery_db := guarded_db |}.

End Solids.

(* ===================================================================== *)
(** * Facts about strings *)
(* ===================================================================== *)

Module PyStrFacts.

Import PyStr.

Lemma app_cons (c : Ascii.ascii) (a b : string) :
  String c a +:+ b = String c (a +:+ b).
Proof. reflexivity. Qed.

Lemma length_app (a b : string) :
  String.length (a +:+ b) = (String.length a + String.length b)%nat.
Proof. induction a as [|c a IH]; simpl; [done | by rewrite IH]. Qed.

Lemma substring_all (s : string) :
  String.substring 0 (String.length s) s = s.
Proof. induction s as [|c s IH]; simpl; [done | by rewrite IH]. Qed.

Lemma substring_app_skip (p s : string) (m : nat) :
  String.substring (String.length p) m (p +:+ s) = String.substring 0 m s.
Proof. induction p as [|c p IH]; simpl; done. Qed.

Lemma substring_split (s : string) (k : nat) :
  (k <= String.length s)%nat ->
  s = String.substring 0 k s +:+ String.substring k (String.length s - k) s.
Proof.
  revert k. induction s as [|c s IH]; intros k Hk; simpl in *.
  - destruct k; simpl; [done | lia].
  - destruct k as [|k]; simpl.
    + by rewrite substring_all.
    + rewrite app_cons. f_equal. apply IH. lia.
Qed.

(** [endswith] computes "has this suffix". *)
Lemma endswith_spec (s suffix : string) :
  endswith s suffix = true <-> exists p, s = p +:+ suffix.
Proof.
  unfold endswith. rewrite andb_true_iff, Nat.leb_le, String.eqb_eq. split.
  - intros [Hle Hsub].
    exists (String.substring 0 (String.length s - String.length suffix) s).
    pose proof (substring_split s (String.length s - String.length suffix)) as Hs.
    replace (String.length s - (String.length s - String.length suffix))%nat
      with (String.length suffix) in Hs by lia.
    rewrite Hsub in Hs. apply Hs. lia.
  - intros [p ->]. rewrite length_app. split; [lia |].
    replace (String.length p + String.length suffix - String.length suffix)%nat
      with (String.length p) by lia.
    rewrite substring_app_skip. apply substring_all.
Qed.

Lemma app_inj_l (s a b : string) : s +:+ a = s +:+ b -> a = b.
Proof. induction s as [|c s IH]; [done |]. rewrite !app_cons. intros [=]. auto. Qed.

Lemma app_inj_r (a b s : string) : a +:+ s = b +:+ s -> a = b.
Proof.
  revert b. induction a as [|c a IH]; intros [|d b] H.
  - done.
  - apply (f_equal String.length) in H. rewrite !length_app in H. simpl in H. lia.
  - apply (f_equal String.length) in H. rewrite !length_app in H. simpl in H. lia.
  - rewrite !app_cons in H. injection H as -> H. f_equal. by apply IH.
Qed.

(** Joining onto a fixed folder is injective on relative names. *)
Lemma path_join_inj (folder a b : string) :
  startswith a "/" = false -> startswith b "/" = false ->
  path_join folder a = path_join folder b -> a = b.
Proof.
  unfold path_join. intros -> ->.
  destruct (String.eqb folder "" || endswith folder "/").
  - apply app_inj_l.
  - intros H. apply app_inj_l in H. by apply app_inj_l in H.
Qed.

End PyStrFacts.

(* ===================================================================== *)
(** * Properties of the edX API client *)
(* ===================================================================== *)

Module ApiClientProps.

Import PyStrFacts ApiClient.

Lemma is_error_spec (status : Z) :
  is_error status = true <-> (400 <= status < 600)%Z.
Proof. unfold is_error. rewrite andb_true_iff, Z.leb_le, Z.ltb_lt. done. Qed.

(** *** Telling the two endpoints apart *)

Lemma identity_request_is_identity edx_url tok :
  is_identity_request edx_url (identity_request edx_url tok) = true.
Proof. apply String.eqb_refl. Qed.

Lemma courses_request_is_courses edx_url tok u :
  is_courses_request edx_url (courses_request edx_url tok u) = true.
Proof. apply String.eqb_refl. Qed.

Lemma identity_request_not_courses edx_url tok :
  is_courses_request edx_url (identity_request edx_url tok) = false.
Proof.
  apply String.eqb_neq. simpl. intros H. apply app_inj_l in H. discriminate.
Qed.

Lemma courses_request_not_identity edx_url tok u :
  is_identity_request edx_url (courses_request edx_url tok u) = false.
Proof.
  apply String.eqb_neq. simpl. intros H. apply app_inj_l in H. discriminate.
Qed.

Lemma page_requests_app edx_url l1 l2 :
  page_requests edx_url (l1 ++ l2)
  = page_requests edx_url l1 ++ page_requests edx_url l2.
Proof. apply List.filter_app. Qed.

Lemma identity_requests_app edx_url l1 l2 :
  identity_requests edx_url (l1 ++ l2)
  = identity_requests edx_url l1 ++ identity_requests edx_url l2.
Proof. apply List.filter_app. Qed.

Lemma page_requests_fetch_trace edx_url tok us :
  page_requests edx_url (fetch_trace edx_url tok us)
  = map (courses_request edx_url tok) us.
Proof.
  induction us as [|u us IH]; [done |].
  unfold fetch_trace in *. cbn [flat_map].
  rewrite page_requests_app, IH. unfold page_requests at 1. cbn [List.filter].
  by rewrite identity_request_not_courses, courses_request_is_courses.
Qed.

Lemma identity_requests_fetch_trace edx_url tok us :
  identity_requests edx_url (fetch_trace edx_url tok us)
  = replicate (length us) (identity_request edx_url tok).
Proof.
  induction us as [|u us IH]; [done |].
  unfold fetch_trace in *. cbn [flat_map].
  rewrite identity_requests_app, IH. unfold identity_requests at 1.
  cbn [List.filter].
  by rewrite identity_request_is_identity, courses_request_not_identity.
Qed.

Lemma identity_of_fun p u u' : identity_of p u -> identity_of p u' -> u = u'.
Proof.
  intros [_ (m & Hb & Hu)] [_ (m' & Hb' & Hu')]. congruence.
Qed.

Section Session.

Variable srv : Server.
Variables edx_url tok : string.

Local Abbreviation id_req := (identity_request edx_url tok).
Local Abbreviation page_req := (courses_request edx_url tok).

Local Abbreviation resolved := (resolved srv edx_url tok).

Ltac step_match :=
  match goal with
  | |- context [match ?x with _ => _ end] => destruct x eqn:?; simpl
  | H : context [match ?x with _ => _ end] |- _ => destruct x eqn:?; simpl in H
  end.

(** What [_get_username] does to the log. *)
Lemma get_username_shape log log' res :
  _get_username srv edx_url tok log = (log', res) ->
  log' = log ++ [id_req] /\
  match res with
  | inl _ => True
  | inr u => resolved u
  end.
Proof.
  unfold _get_username, bind, send, lift, raise_for_status, response_json,
    subscript.
  destruct (srv log id_req) as [p|] eqn:Hp; simpl.
  2:{ intros [= <- <-]. done. }
  destruct (is_error (status_code p)) eqn:Herr; simpl.
  { intros [= <- <-]. done. }
  destruct (body p) as [v|] eqn:Hb; simpl.
  2:{ intros [= <- <-]. done. }
  destruct v; simpl; try (intros [= <- <-]; done).
  destruct (assoc "username" members) as [u|] eqn:Hu; intros [= <- <-];
    [|done].
  split; [done |]. exists log, p. split; [done |]. split; [done |]. eauto.
Qed.

(** What one page fetch does to the log: an identity lookup, and after
    a successful one a request to the list endpoint. *)
Lemma fetch_shape log log' res :
  _fetch_with_auth srv edx_url tok log = (log', res) ->
  (log' = log ++ [id_req] /\ exists e, res = inl e)
  \/ (exists u, resolved u /\ log' = log ++ [id_req; page_req u]).
Proof.
  unfold _fetch_with_auth. unfold bind at 1.
  destruct (_get_username srv edx_url tok log) as [log1 [e|u]] eqn:Hu;
    apply get_username_shape in Hu as [-> Hres].
  { intros [= <- <-]. left. eauto. }
  intros H. right. exists u. split; [done |].
  unfold bind, send, lift in H.
  destruct (srv (log ++ [id_req]) (page_req u)); simpl in H.
  - destruct (raise_for_status r); simpl in H; injection H as <- _;
      by rewrite <- app_assoc.
  - injection H as <- _. by rewrite <- app_assoc.
Qed.

(** What one [next] does: it stops without a request, or it makes one
    page fetch and yields or raises. *)
Lemma gen_next_shape g log log' res :
  gen_next srv edx_url tok g log = (log', res) ->
  (log' = log /\ exists g', res = inr (g', None))
  \/ (log' = log ++ [id_req] /\ exists e, res = inl e)
  \/ (exists u, resolved u /\ log' = log ++ [id_req; page_req u] /\
        ((exists e, res = inl e) \/ exists g' v, res = inr (g', Some v))).
Proof.
  destruct g as [|next_page|]; simpl.
  - unfold bind at 1.
    destruct (_fetch_with_auth srv edx_url tok log) as [log1 [e|v]] eqn:Hf;
      apply fetch_shape in Hf as [[-> [e' He']]|(u & Hu & ->)];
      try discriminate.
    + intros [= <- <-]. right; left. eauto.
    + intros [= <- <-]. right; right. eauto 8.
    + intros H. right; right. exists u. split; [done |].
      unfold bind, lift, ret in H. simpl in H.
      repeat step_match; injection H as <- <-; eauto 8.
  - destruct (truthy next_page).
    2:{ intros [= <- <-]. left. eauto. }
    unfold bind at 1.
    destruct (_fetch_with_auth srv edx_url tok log) as [log1 [e|v]] eqn:Hf;
      apply fetch_shape in Hf as [[-> [e' He']]|(u & Hu & ->)];
      try discriminate.
    + intros [= <- <-]. right; left. eauto.
    + intros [= <- <-]. right; right. eauto 8.
    + intros H. right; right. exists u. split; [done |].
      unfold bind, lift, ret in H. simpl in H.
      repeat step_match; injection H as <- <-; eauto 8.
  - intros [= <- <-]. left. eauto.
Qed.

(** The requests of a consumption: the log it started from, then whole
    page fetches, then at most a lone identity lookup, which only a
    failed lookup leaves behind. *)
Lemma consume_shape fuel g log :
  exists us tail,
    requests (consume_from srv fuel edx_url tok g log)
      = log ++ fetch_trace edx_url tok us ++ tail /\
    Forall resolved us /\
    (length (yielded (consume_from srv fuel edx_url tok g log)) <= length us)%nat /\
    match outcome (consume_from srv fuel edx_url tok g log) with
    | Exhausted =>
        tail = [] /\
        length us = length (yielded (consume_from srv fuel edx_url tok g log))
    | Raised _ => tail = [] \/ tail = [id_req]
    | StillRunning => tail = []
    end.
Proof.
  revert g log. induction fuel as [|fuel IH]; intros g log.
  { exists [], []. simpl. rewrite app_nil_r. auto. }
  cbn [consume_from].
  destruct (gen_next srv edx_url tok g log) as [log1 res] eqn:Hn.
  apply gen_next_shape in Hn
    as [[-> [g' ->]]|[[-> [e ->]]|(u & Hu & -> & [[e ->]|(g' & v & ->)])]].
  - exists [], []. simpl. rewrite app_nil_r. auto.
  - exists [], [id_req]. simpl. auto.
  - exists [u], []. simpl. auto.
  - destruct (IH g' (log ++ [id_req; page_req u]))
      as (us & tail & Hreq & Hres & Hlen & Hout).
    exists (u :: us), tail. cbn [yielded outcome requests].
    rewrite Hreq, <- app_assoc. simpl.
    split; [done |]. split; [by constructor |]. split; [lia |].
    destruct (outcome _); [|done..]. destruct Hout as [-> ->]. done.
Qed.

End Session.

(** *** Successful steps of the generator *)

Lemma fetch_ok srv edx_url tok log who u p v :
  srv log (identity_request edx_url tok) = Some who ->
  identity_of who u ->
  srv (log ++ [identity_request edx_url tok]) (courses_request edx_url tok u)
    = Some p ->
  is_error (status_code p) = false ->
  body p = Some v ->
  _fetch_with_auth srv edx_url tok log
  = (log ++ [identity_request edx_url tok; courses_request edx_url tok u],
     inr v).
Proof.
  intros Hwho [Hok (m & Hb & Hu)] Hp Hpok Hv.
  unfold _fetch_with_auth, _get_username, bind, send, lift,
    raise_for_status, response_json, subscript.
  rewrite Hwho. simpl. rewrite Hok. simpl. rewrite Hb. simpl. rewrite Hu.
  rewrite Hp. simpl. rewrite Hpok. simpl. rewrite Hv.
  by rewrite <- app_assoc.
Qed.

Lemma gen_next_first_page srv edx_url tok log who u p r c :
  srv log (identity_request edx_url tok) = Some who ->
  identity_of who u ->
  srv (log ++ [identity_request edx_url tok]) (courses_request edx_url tok u)
    = Some p ->
  page_of p r c ->
  gen_next srv edx_url tok GenCreated log
  = (log ++ [identity_request edx_url tok; courses_request edx_url tok u],
     inr (GenSuspended c, Some r)).
Proof.
  intros Hwho Hid Hp [Hok (m & pg & Hb & Hr & Hpg & ->)].
  unfold gen_next, bind at 1.
  rewrite (fetch_ok _ _ _ _ _ _ _ _ Hwho Hid Hp Hok Hb).
  unfold bind, lift, ret, subscript, dict_get. simpl.
  rewrite Hr. simpl. rewrite Hpg. simpl.
  by destruct (assoc "next" pg).
Qed.

Lemma gen_next_later_page srv edx_url tok log c0 who u p r c :
  truthy c0 = true ->
  srv log (identity_request edx_url tok) = Some who ->
  identity_of who u ->
  srv (log ++ [identity_request edx_url tok]) (courses_request edx_url tok u)
    = Some p ->
  page_of p r c ->
  gen_next srv edx_url tok (GenSuspended c0) log
  = (log ++ [identity_request edx_url tok; courses_request edx_url tok u],
     inr (GenSuspended c, Some r)).
Proof.
  intros Hc0 Hwho Hid Hp [Hok (m & pg & Hb & Hr & Hpg & ->)].
  unfold gen_next. rewrite Hc0. unfold bind at 1.
  rewrite (fetch_ok _ _ _ _ _ _ _ _ Hwho Hid Hp Hok Hb).
  unfold bind, lift, ret, subscript, dict_get. simpl.
  rewrite Hpg. simpl. rewrite Hr.
  by destruct (assoc "next" pg).
Qed.

(** After a falsy cursor the generator stops without a request. *)
Lemma gen_next_stop srv edx_url tok log c :
  truthy c = false ->
  gen_next srv edx_url tok (GenSuspended c) log = (log, inr (GenFinished, None)).
Proof. intros H. unfold gen_next. by rewrite H. Qed.

(** *** The scripted server *)

Lemma paged_server_identity edx_url tok who pages history :
  paged_server edx_url who pages history (identity_request edx_url tok)
  = Some who.
Proof. unfold paged_server. by rewrite identity_request_is_identity. Qed.

Lemma paged_server_page edx_url tok who pages history u :
  paged_server edx_url who pages history (courses_request edx_url tok u)
  = pages !! length (page_requests edx_url history).
Proof.
  unfold paged_server.
  by rewrite courses_request_not_identity, courses_request_is_courses.
Qed.

(** Consuming a fresh generator starts its body from the top. *)
Lemma consume_call srv fuel edx_url tok log :
  consume srv fuel (get_edx_course_ids edx_url tok) log
  = consume_from srv fuel edx_url tok GenCreated log.
Proof. reflexivity. Qed.

(** *** Token acquisition *)

(** C6. When the token endpoint answers with a 4xx or 5xx status,
    [get_access_token] raises the HTTP status failure and has issued the
    token request and nothing else; when it answers with a 2xx status and
    a JSON object holding [access_token], [get_access_token] returns that
    field, again after the single request. *)
Theorem C6_get_access_token
    srv client_id client_secret edx_url token_type log resp :
  srv log (token_request client_id client_secret edx_url token_type)
    = Some resp ->
  ((400 <= status_code resp < 600)%Z ->
     get_access_token srv client_id client_secret edx_url token_type log
     = (log ++ [token_request client_id client_secret edx_url token_type],
        inl (HTTPStatusError (status_code resp))))
  /\ ((200 <= status_code resp < 300)%Z ->
      forall members token,
        body resp = Some (JObj members) ->
        assoc "access_token" members = Some token ->
        get_access_token srv client_id client_secret edx_url token_type log
        = (log ++ [token_request client_id client_secret edx_url token_type],
           inr token)).
Proof.
  intros Hsrv.
  unfold get_access_token, bind, send, lift, raise_for_status,
    response_json, subscript.
  rewrite Hsrv. simpl. split.
  - intros Hst. apply is_error_spec in Hst. by rewrite Hst.
  - intros Hst members token Hb Ht.
    assert (is_error (status_code resp) = false) as ->.
    { apply not_true_is_false. rewrite is_error_spec. lia. }
    simpl. rewrite Hb. simpl. by rewrite Ht.
Qed.

Lemma C6_get_access_token_witness :
  get_access_token
    (token_server {| status_code := 401; body := None |})
    "id" "secret" "https://lms.example.edu" "jwt" []
  = ([token_request "id" "secret" "https://lms.example.edu" "jwt"],
     inl (HTTPStatusError 401))
  /\ get_access_token
       (token_server
          {| status_code := 200;
             body := Some (JObj [("access_token", JStr "abc");
                                 ("expires_in", JNum 3600)]) |})
       "id" "secret" "https://lms.example.edu" "jwt" []
     = ([token_request "id" "secret" "https://lms.example.edu" "jwt"],
        inr (JStr "abc")).
Proof.
  split.
  - apply (C6_get_access_token
             (token_server {| status_code := 401; body := None |})
             "id" "secret" "https://lms.example.edu" "jwt" []
             {| status_code := 401; body := None |}); [reflexivity |].
    simpl. lia.
  - eapply (C6_get_access_token _ "id" "secret" "https://lms.example.edu"
              "jwt" [] _).
    + reflexivity.
    + simpl. lia.
    + reflexivity.
    + reflexivity.
Defined.

(** *** Pagination *)

(** C2 (as the code has it). When page 1 carries a truthy cursor and
    page 2 an absent, [None] or otherwise falsy one, a full consumption
    yields exactly two elements, the [results] of pages 1 and 2, and
    ends; it has then made two requests to the list endpoint and makes
    none after page 2, whatever pages the server could still serve. *)
Theorem C2_stops_at_first_falsy_cursor
    edx_url tok who u p1 r1 c1 p2 r2 c2 more fuel :
  identity_of who u ->
  page_of p1 r1 c1 -> truthy c1 = true ->
  page_of p2 r2 c2 -> truthy c2 = false ->
  (3 <= fuel)%nat ->
  consume (paged_server edx_url who (p1 :: p2 :: more)) fuel
    (get_edx_course_ids edx_url tok) []
  = {| yielded := [r1; r2];
       outcome := Exhausted;
       requests := [identity_request edx_url tok;
                    courses_request edx_url tok u;
                    identity_request edx_url tok;
                    courses_request edx_url tok u] |}.
Proof.
  intros Hwho Hp1 Hc1 Hp2 Hc2 Hfuel.
  destruct fuel as [|[|[|fuel]]]; [lia.. |].
  rewrite consume_call. cbn [consume_from].
  rewrite (gen_next_first_page _ _ _ _ who u p1 r1 c1);
    [| apply paged_server_identity | done | | done].
  2:{ rewrite paged_server_page. unfold page_requests.
      cbn [app List.filter]. by rewrite identity_request_not_courses. }
  rewrite (gen_next_later_page _ _ _ _ c1 who u p2 r2 c2);
    [| done | apply paged_server_identity | done | | done].
  2:{ rewrite paged_server_page. unfold page_requests.
      cbn [app List.filter].
      by rewrite !identity_request_not_courses, courses_request_is_courses. }
  rewrite gen_next_stop by done. reflexivity.
Qed.

Lemma C2_stops_at_first_falsy_cursor_witness :
  consume (paged_server "https://lms.example.edu" (who_is "alice") three_pages)
    5 (get_edx_course_ids "https://lms.example.edu" "t0k3n") []
  = {| yielded := [JArr [course "a"]; JArr [course "b"]];
       outcome := Exhausted;
       requests :=
         [identity_request "https://lms.example.edu" "t0k3n";
          courses_request "https://lms.example.edu" "t0k3n" (JStr "alice");
          identity_request "https://lms.example.edu" "t0k3n";
          courses_request "https://lms.example.edu" "t0k3n" (JStr "alice")] |}.
Proof.
  apply (C2_stops_at_first_falsy_cursor
           "https://lms.example.edu" "t0k3n" (who_is "alice") (JStr "alice")
           (page [course "a"] (Some (JStr "X"))) (JArr [course "a"]) (JStr "X")
           (page [course "b"] None) (JArr [course "b"]) JNull
           [page [course "c"] None] 5%nat).
  - split; [reflexivity |]. eexists. split; reflexivity.
  - split; [reflexivity |]. do 2 eexists. repeat split; reflexivity.
  - reflexivity.
  - split; [reflexivity |]. do 2 eexists. repeat split; reflexivity.
  - reflexivity.
  - lia.
Defined.

(** C2 fails as stated: with three pages, of which the first carries the
    cursor "X" and the other two carry none, the consumption yields two
    elements, not three. *)
Lemma C2_counterexample :
  let c := consume
             (paged_server "https://lms.example.edu" (who_is "alice")
                three_pages)
             10 (get_edx_course_ids "https://lms.example.edu" "t0k3n") [] in
  length three_pages = 3%nat /\
  outcome c = Exhausted /\
  yielded c = [JArr [course "a"]; JArr [course "b"]] /\
  length (yielded c) <> length three_pages.
Proof. vm_compute. repeat split; congruence. Qed.

Lemma stable_resolved_eq srv edx_url tok u u' :
  stable_identity srv edx_url tok ->
  resolved srv edx_url tok u -> resolved srv edx_url tok u' -> u = u'.
Proof.
  intros Hst (h & p & Hp & Hu) (h' & p' & Hp' & Hu').
  rewrite (Hst h h') in Hp. apply (identity_of_fun p'); congruence.
Qed.

(** The page requests of a consumption, read off its log. *)
Lemma consume_page_requests srv edx_url tok fuel :
  exists us,
    Forall (resolved srv edx_url tok) us /\
    page_requests edx_url
      (requests (consume srv fuel (get_edx_course_ids edx_url tok) []))
    = map (courses_request edx_url tok) us.
Proof.
  rewrite consume_call.
  destruct (consume_shape srv edx_url tok fuel GenCreated [])
    as (us & tail & Hreq & Hres & _ & Hout).
  exists us. split; [done |]. rewrite Hreq. simpl.
  rewrite page_requests_app, page_requests_fetch_trace.
  assert (page_requests edx_url tail = []) as ->; [| by rewrite app_nil_r].
  assert (tail = [] \/ tail = [identity_request edx_url tok]) as [-> | ->].
  { destruct (outcome _); tauto. }
  - done.
  - unfold page_requests. cbn [List.filter].
    by rewrite identity_request_not_courses.
Qed.

(** C3 (as the code has it). Every page fetch resolves the username
    again and sends it as the only query parameter; the cursor is not an
    input of the request.  So when the identity endpoint answers the
    lookup the same way every time, all requests to the list endpoint of
    a consumption are one and the same request: same URL, same headers,
    same query parameters. *)
Theorem C3_page_requests_identical srv edx_url tok fuel :
  stable_identity srv edx_url tok ->
  exists u,
    page_requests edx_url
      (requests (consume srv fuel (get_edx_course_ids edx_url tok) []))
    = replicate
        (length (page_requests edx_url
                   (requests (consume srv fuel (get_edx_course_ids edx_url tok) []))))
        (courses_request edx_url tok u).
Proof.
  intros Hst.
  destruct (consume_page_requests srv edx_url tok fuel) as (us & Hres & ->).
  destruct us as [|u0 us]; [by exists JNull |].
  exists u0. symmetry. apply replicate_as_Forall. split; [done |].
  apply Forall_fmap. eapply Forall_impl; [exact Hres |].
  intros u Hu. simpl. f_equal.
  apply (stable_resolved_eq srv edx_url tok); [done | | done].
  by apply Forall_cons_1 in Hres as [? _].
Qed.

Lemma C3_page_requests_identical_witness :
  exists u,
    page_requests "https://lms.example.edu"
      (requests
         (consume
            (paged_server "https://lms.example.edu" (who_is "alice")
               three_pages)
            5 (get_edx_course_ids "https://lms.example.edu" "t0k3n") []))
    = replicate
        (length
           (page_requests "https://lms.example.edu"
              (requests
                 (consume
                    (paged_server "https://lms.example.edu" (who_is "alice")
                       three_pages)
                    5 (get_edx_course_ids "https://lms.example.edu" "t0k3n") []))))
        (courses_request "https://lms.example.edu" "t0k3n" u).
Proof.
  apply (C3_page_requests_identical
           (paged_server "https://lms.example.edu" (who_is "alice")
              three_pages)
           "https://lms.example.edu" "t0k3n" 5%nat).
  intros h1 h2. reflexivity.
Defined.

(** C3 fails as stated: the username is looked up again before every
    page, so against an identity endpoint that answers "alice" first and
    "bob" afterwards the second page request differs from the first in
    its query parameters. *)
Lemma C3_counterexample :
  let c := consume (renaming_server "https://lms.example.edu" three_pages)
             10 (get_edx_course_ids "https://lms.example.edu" "t0k3n") [] in
  outcome c = Exhausted /\
  page_requests "https://lms.example.edu" (requests c)
  = [ courses_request "https://lms.example.edu" "t0k3n" (JStr "alice");
      courses_request "https://lms.example.edu" "t0k3n" (JStr "bob") ] /\
  params (courses_request "https://lms.example.edu" "t0k3n" (JStr "bob"))
  <> params (courses_request "https://lms.example.edu" "t0k3n" (JStr "alice")).
Proof. vm_compute. repeat split; congruence. Qed.

(** C4 (as the code has it). Every page fetch performs its own identity
    lookup: the requests of a consumption are pairs of an identity lookup
    and a request to the list endpoint, followed at most by one lone
    identity lookup; a consumption that ends normally after n pages has
    made n identity lookups and n requests to the list endpoint. *)
Theorem C4_identity_lookup_per_page srv edx_url tok fuel :
  exists us tail,
    requests (consume srv fuel (get_edx_course_ids edx_url tok) [])
    = fetch_trace edx_url tok us ++ tail /\
    (tail = [] \/ tail = [identity_request edx_url tok]) /\
    match outcome (consume srv fuel (get_edx_course_ids edx_url tok) []) with
    | Exhausted =>
        length (identity_requests edx_url
                  (requests (consume srv fuel (get_edx_course_ids edx_url tok) [])))
        = length (yielded (consume srv fuel (get_edx_course_ids edx_url tok) [])) /\
        length (page_requests edx_url
                  (requests (consume srv fuel (get_edx_course_ids edx_url tok) [])))
        = length (yielded (consume srv fuel (get_edx_course_ids edx_url tok) []))
    | _ => True
    end.
Proof.
  rewrite !consume_call.
  destruct (consume_shape srv edx_url tok fuel GenCreated [])
    as (us & tail & Hreq & _ & _ & Hout).
  exists us, tail. simpl in Hreq. split; [done |].
  destruct (outcome _); [| by auto..].
  destruct Hout as [-> Hlen]. split; [by left |].
  rewrite Hreq, app_nil_r,
    identity_requests_fetch_trace, page_requests_fetch_trace.
  by rewrite length_replicate, length_map.
Qed.

(** C4 fails as stated: consuming two pages performs two identity
    lookups, the second one after the first page request. *)
Lemma C4_counterexample :
  let c := consume
             (paged_server "https://lms.example.edu" (who_is "alice")
                three_pages)
             10 (get_edx_course_ids "https://lms.example.edu" "t0k3n") [] in
  outcome c = Exhausted /\
  requests c
  = [ identity_request "https://lms.example.edu" "t0k3n";
      courses_request "https://lms.example.edu" "t0k3n" (JStr "alice");
      identity_request "https://lms.example.edu" "t0k3n";
      courses_request "https://lms.example.edu" "t0k3n" (JStr "alice") ] /\
  length (identity_requests "https://lms.example.edu" (requests c)) = 2%nat.
Proof. vm_compute. repeat split. Qed.

End ApiClientProps.

(* ===================================================================== *)
(** * Properties of the MITx BigQuery solids *)
(* ===================================================================== *)

Module SolidsProps.

Import PyStr PyStrFacts Solids.

(** *** Paths *)

Lemma file_path_inj folder d d' :
  file_path folder d = file_path folder d' -> d = d'.
Proof.
  unfold file_path. intros H.
  apply path_join_inj in H; [| reflexivity..].
  apply app_inj_l, app_inj_r in H.
  destruct d, d'; simpl in *; congruence.
Qed.

Lemma table_name_inj context d d' :
  table_name context d = table_name context d' -> d = d'.
Proof.
  unfold table_name. intros H.
  apply app_inj_l, app_inj_l, app_inj_r in H.
  destruct d, d'; simpl in *; congruence.
Qed.

(** *** The staleness boundary *)

Lemma modified_minimum_spec rt context minimum :
  modified_minimum rt context = inr minimum ->
  minimum
  = (utcnow rt - last_modified_days context * microseconds_per_day)%Z.
Proof.
  unfold modified_minimum, timedelta_days, datetime_sub.
  destruct (_ <=? _)%Z; [| done].
  destruct (_ && _); [| done].
  by intros [= <-].
Qed.

(** *** One iteration of the loop *)

Section Loop.

Variable context : SolidExecutionContext.
Variable minimum : Z.
Variable file_system : FileSystem.
Variable output_folder : string.

Local Abbreviation body :=
  (process_dataset context minimum file_system output_folder).

(** An iteration that does not raise does what [extraction] says. *)
Lemma process_dataset_completed d s :
  result (body d s) = inr tt ->
  emitted (body d s) = events_of context minimum output_folder d /\
  final (body d s) = store_after context minimum output_folder s d.
Proof.
  unfold process_dataset, events_of, store_after, extraction.
  destruct (get_table _ _) as [e|t].
  { destruct (is_not_found e); simpl; done. }
  destruct (_ >? _)%Z; [| done].
  unfold bind, lift, write_parquet, yield_. simpl.
  destruct (list_rows _ _ _) as [e|rows]; simpl; [done |].
  destruct (open_error _ _); simpl; done.
Qed.

(** An iteration yields nothing but materialization records. *)
Lemma process_dataset_emits d s :
  exists mats, emitted (body d s) = Materialized <$> mats.
Proof.
  unfold process_dataset.
  destruct (get_table _ _) as [e|t].
  { exists []. by destruct (is_not_found e). }
  destruct (_ >? _)%Z; [| by exists []].
  unfold bind, lift, write_parquet, yield_. simpl.
  destruct (list_rows _ _ _) as [e|rows]; simpl; [by exists [] |].
  destruct (open_error _ _); simpl; [by exists [] |].
  by eexists [_].
Qed.

(** A dataset whose table is missing is passed over. *)
Lemma process_dataset_not_found d s :
  get_table (bigquery_db context) (table_name context d) = inl NotFound ->
  body d s = ret tt s.
Proof. unfold process_dataset. by intros ->. Qed.

Lemma process_dataset_tolerated d s :
  tolerated context minimum file_system output_folder d ->
  result (body d s) = inr tt.
Proof.
  unfold tolerated, process_dataset.
  destruct (get_table _ _) as [e|t]; [by intros -> |].
  destruct (_ >? _)%Z; [| done].
  intros [[rs Hrs] Hopen].
  unfold bind, lift, write_parquet, yield_, list_rows. simpl.
  rewrite Hrs. simpl. by rewrite Hopen.
Qed.

(** *** The whole loop *)

Lemma for_each_completed ds s :
  result (for_each body ds s) = inr tt ->
  emitted (for_each body ds s)
  = flat_map (events_of context minimum output_folder) ds /\
  final (for_each body ds s)
  = foldl (store_after context minimum output_folder) s ds.
Proof.
  revert s. induction ds as [|d ds IH]; intros s; [done |].
  cbn [for_each flat_map foldl]. unfold bind.
  destruct (result (body d s)) as [e|[]] eqn:Hd; [done |]. simpl.
  intros Hrest.
  destruct (process_dataset_completed d s Hd) as [-> Hfin].
  rewrite Hfin in *. by destruct (IH _ Hrest) as [-> ->].
Qed.

Lemma for_each_emits ds s :
  exists mats, emitted (for_each body ds s) = Materialized <$> mats.
Proof.
  revert s. induction ds as [|d ds IH]; intros s; [by exists [] |].
  cbn [for_each]. unfold bind.
  destruct (process_dataset_emits d s) as [m1 Hm1].
  destruct (result (body d s)) as [e|[]]; simpl; [by exists m1 |].
  destruct (IH (final (body d s))) as [m2 Hm2].
  exists (m1 ++ m2). by rewrite Hm1, Hm2, fmap_app.
Qed.

Lemma for_each_tolerated ds s :
  Forall (tolerated context minimum file_system output_folder) ds ->
  result (for_each body ds s) = inr tt.
Proof.
  revert s. induction ds as [|d ds IH]; intros s Hds; [done |].
  apply Forall_cons_1 in Hds as [Hd Hds].
  cbn [for_each]. unfold bind.
  rewrite (process_dataset_tolerated d s Hd). simpl. by apply IH.
Qed.

(** A dataset whose table is missing might as well not be in the
    list. *)
Lemma for_each_skip pre d post s :
  get_table (bigquery_db context) (table_name context d) = inl NotFound ->
  for_each body (pre ++ d :: post) s = for_each body (pre ++ post) s.
Proof.
  intros Hd. revert s. induction pre as [|x pre IH]; intros s.
  - simpl. unfold bind. rewrite (process_dataset_not_found d s Hd). simpl.
    by destruct (for_each body post s).
  - cbn [app for_each]. unfold bind.
    destruct (result (body x s)); [done |]. by rewrite IH.
Qed.

End Loop.

(** *** The solid around the loop *)

Lemma download_user_data_unfold rt context datasets s minimum fsys folder :
  modified_minimum rt context = inr minimum ->
  from_uri rt (outputs_dir context) = inr (fsys, folder) ->
  download_user_data rt context datasets s
  = let r := for_each (process_dataset context minimum fsys folder)
               datasets s in
    match result r with
    | inl e => {| emitted := emitted r; final := final r; result := inl e |}
    | inr _ =>
        {| emitted := emitted r ++ [Output folder "user_query_folder"];
           final := final r;
           result := inr tt |}
    end.
Proof.
  intros Hmin Huri. unfold download_user_data.
  unfold bind at 1, lift at 1. rewrite Hmin. simpl.
  unfold bind at 1, lift at 1. rewrite Huri. simpl.
  unfold bind, yield_. by destruct (result _).
Qed.

Lemma download_user_data_completed rt context datasets s :
  result (download_user_data rt context datasets s) = inr tt ->
  exists minimum fsys folder,
    modified_minimum rt context = inr minimum /\
    from_uri rt (outputs_dir context) = inr (fsys, folder) /\
    result (for_each (process_dataset context minimum fsys folder) datasets s)
    = inr tt.
Proof.
  destruct (modified_minimum rt context) as [e|minimum] eqn:Hmin.
  { unfold download_user_data, bind, lift. rewrite Hmin. done. }
  destruct (from_uri rt (outputs_dir context)) as [e|[fsys folder]] eqn:Huri.
  { unfold download_user_data, bind, lift. rewrite Hmin. simpl.
    rewrite Huri. done. }
  rewrite (download_user_data_unfold _ _ _ _ _ _ _ Hmin Huri). simpl.
  intros H. exists minimum, fsys, folder. repeat split.
  destruct (result (for_each _ _ _)) as [e|[]]; done.
Qed.

(** *** Records by asset key *)

Lemma dataset_eq d d' : dataset_id d = dataset_id d' -> d = d'.
Proof. destruct d, d'; simpl; congruence. Qed.

Lemma records_for_app key l1 l2 :
  records_for key (l1 ++ l2) = records_for key l1 ++ records_for key l2.
Proof. apply omap_app. Qed.

Lemma records_for_events_of context minimum folder d :
  records_for (dataset_id d) (events_of context minimum folder d)
  = match extraction context minimum d with
    | Some rows => [materialization d (file_path folder d) rows]
    | None => []
    end.
Proof.
  unfold events_of. destruct (extraction _ _ _); [| done].
  unfold records_for. simpl. by rewrite String.eqb_refl.
Qed.

Lemma records_for_events_of_ne context minimum folder key d :
  dataset_id d <> key ->
  records_for key (events_of context minimum folder d) = [].
Proof.
  intros Hne. unfold events_of. destruct (extraction _ _ _); [| done].
  unfold records_for. simpl.
  by apply String.eqb_neq in Hne as ->.
Qed.

Lemma records_for_absent context minimum folder key l :
  (forall d, d ∈ l -> dataset_id d = key ->
             extraction context minimum d = None) ->
  records_for key (flat_map (events_of context minimum folder) l) = [].
Proof.
  induction l as [|x l IH]; intros Hl; [done |].
  cbn [flat_map]. rewrite records_for_app, IH.
  2:{ intros d Hd. apply Hl. by right. }
  rewrite app_nil_r.
  destruct (decide (dataset_id x = key)) as [<-|Hne].
  - rewrite records_for_events_of, Hl; [done | by left | done].
  - by apply records_for_events_of_ne.
Qed.

(** *** The terminal output *)

(** C10. Whatever the datasets, and however many of them are passed over,
    a run that completes has yielded materialization records and then,
    once and last, the output holding the output folder; a run that raises
    has yielded materialization records only. *)
Theorem C10_output_is_yielded_last rt context datasets s :
  match result (download_user_data rt context datasets s) with
  | inr _ =>
      exists mats fsys folder,
        from_uri rt (outputs_dir context) = inr (fsys, folder) /\
        emitted (download_user_data rt context datasets s)
        = (Materialized <$> mats) ++ [Output folder "user_query_folder"]
  | inl _ =>
      exists mats,
        emitted (download_user_data rt context datasets s)
        = Materialized <$> mats
  end.
Proof.
  destruct (modified_minimum rt context) as [e|minimum] eqn:Hmin.
  { unfold download_user_data, bind, lift. rewrite Hmin. by exists []. }
  destruct (from_uri rt (outputs_dir context)) as [e|[fsys folder]] eqn:Huri.
  { unfold download_user_data, bind, lift. rewrite Hmin. simpl.
    rewrite Huri. by exists []. }
  rewrite (download_user_data_unfold _ _ _ _ _ _ _ Hmin Huri). simpl.
  destruct (for_each_emits context minimum fsys folder datasets s)
    as [mats Hmats].
  destruct (result (for_each _ _ _)) as [e|[]]; simpl.
  - by exists mats.
  - exists mats, fsys, folder. by rewrite Hmats.
Qed.

(** *** Selecting the datasets *)

(** C8. [get_datasets] propagates a failure of the listing unchanged;
    otherwise it returns the listed datasets whose identifier ends with
    "_latest", in the order of the listing: what it keeps is a subsequence
    of the listing, everything kept has the suffix, and nothing dropped has
    it. *)
Theorem C8_get_datasets context :
  match list_datasets (bigquery_db context) with
  | inl e => get_datasets context = inl e
  | inr listed =>
      exists kept dropped,
        get_datasets context = inr kept /\
        kept `sublist_of` listed /\
        listed ≡ₚ kept ++ dropped /\
        Forall (fun d => has_suffix (dataset_id d) "_latest") kept /\
        Forall (fun d => ~ has_suffix (dataset_id d) "_latest") dropped
  end.
Proof.
  unfold get_datasets. destruct (list_datasets _) as [e|listed]; [done |].
  eexists _, (filter (fun d => ~ endswith (dataset_id d) "_latest" = true) listed).
  split; [done |]. split; [apply sublist_filter |].
  split; [symmetry; apply filter_app_complement |].
  split; apply Forall_forall; intros d [Hd _]%list_elem_of_filter.
  - by apply endswith_spec.
  - intros Hs. by apply Hd, endswith_spec.
Qed.

(** *** Projecting the schema *)

(** C9. For a table that is found, the projection keeps exactly the
    columns of the table schema whose name is one of the seven desired
    fields, in the order of the schema; a desired field the schema lacks is
    absent from the projection as well.  Building the projection cannot
    raise: the iteration raises only what reading the rows under the
    projection or opening the output file raises, and the file it writes
    carries the projected schema. *)
Theorem C9_schema_projection context minimum fsys folder d s t :
  get_table (bigquery_db context) (table_name context d) = inr t ->
  desired_schema t `sublist_of` schema t /\
  (forall column,
     column ∈ desired_schema t <->
     column ∈ schema t /\
     name column ∈ [ "user_id"; "username"; "email"; "is_staff";
                     "profile_name"; "profile_meta"; "enrollment_course_id" ]) /\
  (forall field,
     field ∉ (name <$> schema t) -> field ∉ (name <$> desired_schema t)) /\
  if (modified t >? minimum)%Z then
    match read_rows (bigquery_db context) t (desired_schema t) with
    | inl e =>
        result (process_dataset context minimum fsys folder d s) = inl e
    | inr rs =>
        match open_error fsys (file_path folder d) with
        | Some e =>
            result (process_dataset context minimum fsys folder d s) = inl e
        | None =>
            result (process_dataset context minimum fsys folder d s) = inr tt /\
            files (final (process_dataset context minimum fsys folder d s))
              !! file_path folder d
            = Some {| arrow_schema := desired_schema t; arrow_rows := rs |}
        end
    end
  else result (process_dataset context minimum fsys folder d s) = inr tt.
Proof.
  intros Ht. split; [apply sublist_filter |].
  split.
  { intros column. unfold desired_schema. rewrite list_elem_of_filter.
    change fields with [ "user_id"; "username"; "email"; "is_staff";
                         "profile_name"; "profile_meta";
                         "enrollment_course_id" ].
    tauto. }
  split.
  { intros field Hf [c [-> Hc%list_elem_of_filter]]%list_elem_of_fmap.
    apply Hf, list_elem_of_fmap. exists c. tauto. }
  unfold process_dataset. rewrite Ht.
  destruct (_ >? _)%Z; [| done].
  unfold bind, lift, write_parquet, yield_, list_rows. simpl.
  destruct (read_rows _ _ _) as [e|rs]; simpl; [done |].
  destruct (open_error _ _); simpl; [done |].
  split; [done |]. by rewrite lookup_insert_eq.
Qed.

Lemma C9_schema_projection_witness :
  desired_schema example_table `sublist_of` schema example_table /\
  ({| name := "email"; field_type := "STRING" |} ∈ desired_schema example_table) /\
  "is_staff" ∉ (name <$> desired_schema example_table).
Proof.
  pose proof (C9_schema_projection example_context 0
                {| open_error := fun _ => None |} "bucket/mitx"
                run2_latest empty_store example_table eq_refl)
    as (Hsub & Hmem & Habsent & _).
  split; [exact Hsub |]. split.
  - apply Hmem. split.
    + do 3 right. left.
    + do 2 right. left.
  - apply Habsent. simpl.
    repeat (apply not_elem_of_cons; split; [discriminate |]).
    apply not_elem_of_nil.
Defined.

(** *** Missing tables *)

(** C5. A dataset whose table lookup signals not-found is passed over: the
    run is the run without that dataset.  When nothing else fails, the run
    completes, yields one materialization record for every other dataset
    whose table exists and is new enough, none for the dataset passed
    over, and ends with the output folder as its single output. *)
Theorem C5_missing_table_is_skipped
    rt context pre D post s minimum fsys folder :
  modified_minimum rt context = inr minimum ->
  from_uri rt (outputs_dir context) = inr (fsys, folder) ->
  get_table (bigquery_db context) (table_name context D) = inl NotFound ->
  Forall (tolerated context minimum fsys folder) (pre ++ post) ->
  download_user_data rt context (pre ++ D :: post) s
  = download_user_data rt context (pre ++ post) s /\
  result (download_user_data rt context (pre ++ D :: post) s) = inr tt /\
  emitted (download_user_data rt context (pre ++ D :: post) s)
  = flat_map (events_of context minimum folder) (pre ++ post)
      ++ [Output folder "user_query_folder"] /\
  records_for (dataset_id D)
    (emitted (download_user_data rt context (pre ++ D :: post) s)) = [] /\
  (forall d t,
     d ∈ pre ++ post ->
     get_table (bigquery_db context) (table_name context d) = inr t ->
     (modified t > minimum)%Z ->
     exists rs,
       read_rows (bigquery_db context) t (desired_schema t) = inr rs /\
       Materialized
         (materialization d (file_path folder d)
            {| selected_fields := desired_schema t; fetched := rs |})
       ∈ emitted (download_user_data rt context (pre ++ D :: post) s)).
Proof.
  intros Hmin Huri HD Hok.
  assert (download_user_data rt context (pre ++ D :: post) s
          = download_user_data rt context (pre ++ post) s) as Heq.
  { rewrite !(download_user_data_unfold _ _ _ _ _ _ _ Hmin Huri).
    by rewrite for_each_skip. }
  split; [done |]. rewrite Heq.
  rewrite (download_user_data_unfold _ _ _ _ _ _ _ Hmin Huri). cbn zeta.
  pose proof (for_each_tolerated _ _ _ _ _ s Hok) as Hres.
  destruct (for_each_completed _ _ _ _ _ _ Hres) as [Hem _].
  rewrite Hres. cbn [result emitted]. rewrite Hem.
  split; [done |]. split; [done |]. split.
  - rewrite records_for_app, app_nil_r. apply records_for_absent.
    intros d _ Hd. apply dataset_eq in Hd as ->.
    unfold extraction. by rewrite HD.
  - intros d t Hd Ht Hfresh.
    rewrite Forall_forall in Hok. specialize (Hok d Hd).
    unfold tolerated in Hok. rewrite Ht in Hok.
    apply Z.gtb_gt in Hfresh. rewrite Hfresh in Hok.
    destruct Hok as [[rs Hrs] _]. exists rs. split; [done |].
    apply elem_of_app. left. apply list_elem_of_In, in_flat_map.
    exists d. split; [by apply list_elem_of_In |].
    unfold events_of, extraction, list_rows. rewrite Ht, Hfresh, Hrs.
    by left.
Qed.

(** The end-to-end example: [run1_latest] has no table, [run2_latest] has
    one with 42 rows newer than the boundary. *)
Lemma C5_missing_table_is_skipped_witness :
  emitted (download_user_data (example_runtime 737699) example_context
             [run1_latest; run2_latest] empty_store)
  = [ Materialized
        {| description := "Updated course file";
           asset_key := "run2_latest";
           metadata_entries :=
             [ {| label := "updated_file";
                  entry_description := "updated course file";
                  text := "bucket/mitx/user_info_combo_run2_latest.parquet" |};
               {| label := "updated_rows";
                  entry_description := "number of records";
                  text := "42" |} ] |};
      Output "bucket/mitx" "user_query_folder" ].
Proof.
  pose proof (C5_missing_table_is_skipped
                (example_runtime 737699) example_context
                [] run1_latest [run2_latest] empty_store
                ((737699 - 3600) * microseconds_per_day)%Z
                {| open_error := fun _ => None |} "bucket/mitx"
                eq_refl eq_refl eq_refl) as H.
  destruct H as (_ & _ & Hem & _).
  - repeat constructor. by exists example_rows.
  - exact Hem.
Defined.

(** *** The store after the loop *)

Section StoreAfter.

Variable context : SolidExecutionContext.
Variable minimum : Z.
Variable folder : string.

Local Abbreviation step := (store_after context minimum folder).

Lemma foldl_store_writes ds s :
  writes (foldl step s ds)
  = writes s ++ flat_map (written_by context minimum folder) ds.
Proof.
  revert s. induction ds as [|d ds IH]; intros s; simpl.
  { by rewrite app_nil_r. }
  rewrite IH. unfold store_after, written_by.
  destruct (extraction _ _ _); simpl; [| done].
  by rewrite <- app_assoc.
Qed.

(** A path no extracted dataset maps to keeps its file. *)
Lemma foldl_store_untouched ds s p :
  (forall x, x ∈ ds -> file_path folder x = p ->
             extraction context minimum x = None) ->
  files (foldl step s ds) !! p = files s !! p.
Proof.
  revert s. induction ds as [|d ds IH]; intros s Hds; [done |].
  simpl. rewrite IH by (intros x Hx; apply Hds; by right).
  unfold store_after.
  destruct (extraction context minimum d) as [rows|] eqn:Hd; [| done].
  simpl. apply lookup_insert_ne. intros Hp.
  specialize (Hds d (list_elem_of_here _ _) Hp). congruence.
Qed.

(** The file of an extracted dataset holds its rows, whatever else the
    loop wrote. *)
Lemma foldl_store_extracted ds s d rows :
  d ∈ ds -> extraction context minimum d = Some rows ->
  files (foldl step s ds) !! file_path folder d = Some (to_arrow rows).
Proof.
  intros Hd Hrows. revert s.
  induction ds as [|x ds IH] using rev_ind; intros s.
  { by apply elem_of_nil in Hd. }
  rewrite foldl_app. simpl. unfold store_after at 1.
  destruct (extraction context minimum x) as [rows'|] eqn:Hx.
  - simpl. destruct (decide (file_path folder x = file_path folder d)) as [Hp|Hp].
    + apply file_path_inj in Hp as ->.
      rewrite lookup_insert_eq. congruence.
    + rewrite lookup_insert_ne by done.
      apply elem_of_app in Hd as [Hd|Hd]; [by apply IH |].
      apply list_elem_of_singleton in Hd as ->. done.
  - apply elem_of_app in Hd as [Hd|Hd]; [by apply IH |].
    apply list_elem_of_singleton in Hd as ->. congruence.
Qed.

(** A loop that only rewrites files with what they hold changes none. *)
Lemma foldl_store_idle ds s :
  (forall d rows, d ∈ ds -> extraction context minimum d = Some rows ->
                  files s !! file_path folder d = Some (to_arrow rows)) ->
  files (foldl step s ds) = files s.
Proof.
  revert s. induction ds as [|d ds IH]; intros s Hds; [done |].
  assert (files (step s d) = files s) as Hstep.
  { unfold store_after.
    destruct (extraction context minimum d) as [rows|] eqn:Hd; [| done].
    simpl. apply insert_id, Hds; [by left | done]. }
  simpl. rewrite IH, Hstep; [done |].
  intros x rows Hx Hrows. rewrite Hstep. apply Hds; [by right | done].
Qed.

Lemma writes_to_absent ds p :
  (forall x, x ∈ ds -> file_path folder x = p ->
             extraction context minimum x = None) ->
  writes_to p (flat_map (written_by context minimum folder) ds) = [].
Proof.
  induction ds as [|d ds IH]; intros Hds; [done |].
  cbn [flat_map]. unfold writes_to in *. rewrite List.filter_app.
  rewrite IH by (intros x Hx; apply Hds; by right). rewrite app_nil_r.
  unfold written_by.
  destruct (extraction context minimum d) as [rows|] eqn:Hd; [| done].
  simpl. destruct (String.eqb_spec p (file_path folder d)) as [->|]; [| done].
  specialize (Hds d (list_elem_of_here _ _) eq_refl). congruence.
Qed.

End StoreAfter.

(** A loop that completes met no failure at any dataset. *)
Lemma for_each_completed_tolerated context minimum fsys folder ds s :
  result (for_each (process_dataset context minimum fsys folder) ds s)
  = inr tt ->
  Forall (tolerated context minimum fsys folder) ds.
Proof.
  revert s. induction ds as [|d ds IH]; intros s; [by constructor |].
  cbn [for_each]. unfold bind.
  destruct (result (process_dataset _ _ _ _ d s)) as [e|[]] eqn:Hd; [done |].
  simpl. intros Hrest. constructor; [| by eapply IH].
  clear Hrest IH. revert Hd. unfold process_dataset, tolerated.
  destruct (get_table _ _) as [e|t].
  { by destruct e. }
  destruct (_ >? _)%Z; [| done].
  unfold bind, lift, write_parquet, yield_, list_rows. simpl.
  destruct (read_rows _ _ _) as [e|rs]; simpl; [done |].
  destruct (open_error _ _); simpl; [done |]. eauto.
Qed.

(** A table that is older for a later boundary: what the later run
    extracts, the earlier run extracted. *)
Lemma extraction_mono context minimum minimum' d rows :
  (minimum <= minimum')%Z ->
  extraction context minimum' d = Some rows ->
  extraction context minimum d = Some rows.
Proof.
  unfold extraction. intros Hle.
  destruct (get_table _ _) as [e|t]; [done |].
  destruct (modified t >? minimum')%Z eqn:Hf; [| done].
  apply Z.gtb_gt in Hf.
  assert ((modified t >? minimum)%Z = true) as -> by (apply Z.gtb_gt; lia).
  done.
Qed.

(** What a completed run leaves behind. *)
Lemma download_user_data_effects rt context datasets s :
  result (download_user_data rt context datasets s) = inr tt ->
  exists minimum fsys folder,
    modified_minimum rt context = inr minimum /\
    from_uri rt (outputs_dir context) = inr (fsys, folder) /\
    Forall (tolerated context minimum fsys folder) datasets /\
    emitted (download_user_data rt context datasets s)
    = flat_map (events_of context minimum folder) datasets
        ++ [Output folder "user_query_folder"] /\
    final (download_user_data rt context datasets s)
    = foldl (store_after context minimum folder) s datasets.
Proof.
  intros Hrun.
  destruct (download_user_data_completed _ _ _ _ Hrun)
    as (minimum & fsys & folder & Hmin & Huri & Hloop).
  exists minimum, fsys, folder.
  split; [done |]. split; [done |].
  split; [by eapply for_each_completed_tolerated |].
  rewrite (download_user_data_unfold _ _ _ _ _ _ _ Hmin Huri). cbn zeta.
  destruct (for_each_completed _ _ _ _ _ _ Hloop) as [Hem Hfin].
  rewrite Hloop. cbn [emitted final]. by rewrite Hem, Hfin.
Qed.

(** *** Freshness *)

(** C1. In a run that completes over datasets with distinct identifiers,
    take a dataset whose [user_info_combo] table exists.  If the table was
    modified strictly after [now - threshold_days], the run writes the path
    [output_root/user_info_combo_<dataset_id>.parquet] exactly once, the
    file there holds the rows read under the projected schema, and exactly
    one materialization record carries the dataset's key, with that path
    and the number of rows read.  Otherwise the run does not write that
    path, leaves whatever was there, and yields no record for the
    dataset. *)
Theorem C1_fresh_tables_are_extracted rt context datasets s d t :
  NoDup (dataset_id <$> datasets) ->
  d ∈ datasets ->
  get_table (bigquery_db context) (table_name context d) = inr t ->
  result (download_user_data rt context datasets s) = inr tt ->
  exists fsys folder written,
    from_uri rt (outputs_dir context) = inr (fsys, folder) /\
    writes (final (download_user_data rt context datasets s))
    = writes s ++ written /\
    let path :=
      path_join folder ("user_info_combo_" +:+ dataset_id d +:+ ".parquet") in
    if (modified t
        >? utcnow rt - last_modified_days context * microseconds_per_day)%Z
    then
      exists rs,
        read_rows (bigquery_db context) t (desired_schema t) = inr rs /\
        writes_to path written = [path] /\
        files (final (download_user_data rt context datasets s)) !! path
        = Some {| arrow_schema := desired_schema t; arrow_rows := rs |} /\
        records_for (dataset_id d)
          (emitted (download_user_data rt context datasets s))
        = [ {| description := "Updated course file";
               asset_key := dataset_id d;
               metadata_entries :=
                 [ {| label := "updated_file";
                      entry_description := "updated course file";
                      text := path |};
                   {| label := "updated_rows";
                      entry_description := "number of records";
                      text := pretty (Z.of_nat (length rs)) |} ] |} ]
    else
      writes_to path written = [] /\
      files (final (download_user_data rt context datasets s)) !! path
      = files s !! path /\
      records_for (dataset_id d)
        (emitted (download_user_data rt context datasets s)) = [].
Proof.
  intros Hnodup Hd Ht Hrun.
  destruct (download_user_data_effects _ _ _ _ Hrun)
    as (minimum & fsys & folder & Hmin & Huri & Hok & -> & ->).
  exists fsys, folder, (flat_map (written_by context minimum folder) datasets).
  split; [done |]. split; [apply foldl_store_writes |].
  apply modified_minimum_spec in Hmin as <-.
  change (path_join folder
            ("user_info_combo_" +:+ dataset_id d +:+ ".parquet"))
    with (file_path folder d).
  cbn zeta.
  (* [d] occurs once: the other datasets have other keys and other paths. *)
  destruct (list_elem_of_split _ _ Hd) as (l1 & l2 & ->).
  assert ((d ∉ l1) /\ (d ∉ l2)) as [Hl1 Hl2].
  { apply NoDup_fmap_1, NoDup_app in Hnodup as (_ & Hdis & Hnd).
    split.
    - intros Hin. apply (Hdis d Hin). by left.
    - by apply NoDup_cons in Hnd as [? _]. }
  assert (forall l : list Dataset, d ∉ l ->
            records_for (dataset_id d)
              (flat_map (events_of context minimum folder) l) = []) as Hrec.
  { intros l Hl. apply records_for_absent.
    intros x Hx Hk. apply dataset_eq in Hk as ->. done. }
  assert (forall l : list Dataset, d ∉ l ->
            writes_to (file_path folder d)
              (flat_map (written_by context minimum folder) l) = []) as Hwr.
  { intros l Hl. apply writes_to_absent.
    intros x Hx Hp. apply file_path_inj in Hp as ->. done. }
  assert (records_for (dataset_id d)
            (flat_map (events_of context minimum folder) (l1 ++ d :: l2)
               ++ [Output folder "user_query_folder"])
          = match extraction context minimum d with
            | Some rows => [materialization d (file_path folder d) rows]
            | None => []
            end) as ->.
  { rewrite flat_map_app. cbn [flat_map].
    rewrite !records_for_app, (Hrec l1 Hl1), (Hrec l2 Hl2), !app_nil_r.
    apply records_for_events_of. }
  assert (writes_to (file_path folder d)
            (flat_map (written_by context minimum folder) (l1 ++ d :: l2))
          = match extraction context minimum d with
            | Some _ => [file_path folder d]
            | None => []
            end) as ->.
  { rewrite flat_map_app. cbn [flat_map].
    unfold writes_to. rewrite !List.filter_app.
    fold (writes_to (file_path folder d)
            (flat_map (written_by context minimum folder) l1)).
    fold (writes_to (file_path folder d)
            (flat_map (written_by context minimum folder) l2)).
    rewrite (Hwr l1 Hl1), (Hwr l2 Hl2), app_nil_r. cbn [app].
    unfold written_by. destruct (extraction _ _ _); [| done].
    cbn [List.filter]. by rewrite String.eqb_refl. }
  rewrite Forall_forall in Hok. specialize (Hok d Hd).
  unfold tolerated in Hok. rewrite Ht in Hok.
  destruct (modified t >? minimum)%Z eqn:Hfresh.
  - destruct Hok as [[rs Hrs] _]. exists rs. split; [done |].
    assert (extraction context minimum d
            = Some {| selected_fields := desired_schema t; fetched := rs |})
      as Hex.
    { unfold extraction, list_rows. by rewrite Ht, Hfresh, Hrs. }
    rewrite Hex. split; [done |]. split; [| done].
    by rewrite (foldl_store_extracted _ _ _ _ _ _ _ Hd Hex).
  - assert (extraction context minimum d = None) as Hex.
    { unfold extraction. by rewrite Ht, Hfresh. }
    rewrite Hex. split; [done |]. split; [| done].
    apply foldl_store_untouched.
    intros x _ Hp. apply file_path_inj in Hp as ->. done.
Qed.

Lemma C1_fresh_tables_are_extracted_witness :
  exists rs,
    files (final (download_user_data (example_runtime 737699) example_context
                    [run1_latest; run2_latest] empty_store))
      !! "bucket/mitx/user_info_combo_run2_latest.parquet"
    = Some {| arrow_schema := desired_schema example_table; arrow_rows := rs |} /\
    records_for "run2_latest"
      (emitted (download_user_data (example_runtime 737699) example_context
                  [run1_latest; run2_latest] empty_store))
    = [ {| description := "Updated course file";
           asset_key := "run2_latest";
           metadata_entries :=
             [ {| label := "updated_file";
                  entry_description := "updated course file";
                  text := "bucket/mitx/user_info_combo_run2_latest.parquet" |};
               {| label := "updated_rows";
                  entry_description := "number of records";
                  text := pretty (Z.of_nat (length rs)) |} ] |} ].
Proof.
  destruct (C1_fresh_tables_are_extracted
              (example_runtime 737699) example_context
              [run1_latest; run2_latest] empty_store run2_latest example_table)
    as (fsys & folder & written & Huri & _ & H).
  - apply (bool_decide_unpack _). vm_compute. exact I.
  - right. left.
  - reflexivity.
  - vm_compute. reflexivity.
  - injection Huri as <- <-. cbv zeta in H.
    match type of H with
    | if ?c then _ else _ => change c with true in H
    end.
    destruct H as (rs & _ & _ & Hfile & Hrec).
    exists rs. split; [exact Hfile | exact Hrec].
Defined.

(** *** Running twice *)

(** C7. Run the solid to completion, and run it again, no earlier, against
    the same warehouse with the same configuration, on the store the first
    run left: the files after the second run are the files after the first.
    Each file the second run writes is written at the path, and with the
    rows, the first run wrote it with; nothing is appended. *)
Theorem C7_rerun_leaves_files_unchanged rt1 rt2 context datasets s :
  from_uri rt2 (outputs_dir context) = from_uri rt1 (outputs_dir context) ->
  (utcnow rt1 <= utcnow rt2)%Z ->
  result (download_user_data rt1 context datasets s) = inr tt ->
  result (download_user_data rt2 context datasets
            (final (download_user_data rt1 context datasets s))) = inr tt ->
  files (final (download_user_data rt2 context datasets
                  (final (download_user_data rt1 context datasets s))))
  = files (final (download_user_data rt1 context datasets s)).
Proof.
  intros Huri Hnow Hrun1 Hrun2.
  destruct (download_user_data_effects _ _ _ _ Hrun2)
    as (min2 & fsys2 & folder2 & Hmin2 & Huri2 & _ & _ & ->).
  destruct (download_user_data_effects _ _ _ _ Hrun1)
    as (min1 & fsys1 & folder1 & Hmin1 & Huri1 & _ & _ & ->).
  assert (folder2 = folder1) as -> by congruence.
  apply modified_minimum_spec in Hmin1, Hmin2.
  apply foldl_store_idle. intros d rows Hd Hrows.
  apply foldl_store_extracted; [done |].
  apply (extraction_mono _ min1 min2); [lia | done].
Qed.

Lemma C7_rerun_leaves_files_unchanged_witness :
  files (final (download_user_data (example_runtime 737700) example_context
                  [run1_latest; run2_latest]
                  (final (download_user_data (example_runtime 737699)
                            example_context [run1_latest; run2_latest]
                            empty_store))))
  = files (final (download_user_data (example_runtime 737699) example_context
                    [run1_latest; run2_latest] empty_store)).
Proof.
  apply (C7_rerun_leaves_files_unchanged
           (example_runtime 737699) (example_runtime 737700) example_context
           [run1_latest; run2_latest] empty_store).
  - reflexivity.
  - vm_compute. discriminate.
  - vm_compute. reflexivity.
  - vm_compute. reflexivity.
Defined.

End SolidsProps.

(* ===================================================================== *)
(** * Further properties of the edX API client *)
(* ===================================================================== *)

Module ApiClientExtra.

Import PyStrFacts ApiClient ApiClientProps.

(** *** Token acquisition *)

(** X1. Whatever the token endpoint answers, and whether or not the call
    succeeds, [get_access_token] issues the token request once and nothing
    else: there is no retry and no second call. *)
Theorem X1_get_access_token_single_request
    srv client_id client_secret edx_url token_type log :
  fst (get_access_token srv client_id client_secret edx_url token_type log)
  = log ++ [token_request client_id client_secret edx_url token_type].
Proof.
  unfold get_access_token, bind, send, lift.
  destruct (srv log _) as [resp|]; simpl; [| done].
  destruct (raise_for_status resp); simpl; [done |].
  destruct (response_json resp); simpl; done.
Qed.

(** X2. A success status does not make the call succeed: when the body is
    a JSON object without [access_token] the call raises [KeyError], when
    it is JSON of another kind it raises [TypeError], and when it is not
    JSON at all it raises the decoding error. *)
Theorem X2_get_access_token_bad_body
    srv client_id client_secret edx_url token_type log resp :
  srv log (token_request client_id client_secret edx_url token_type)
    = Some resp ->
  is_error (status_code resp) = false ->
  snd (get_access_token srv client_id client_secret edx_url token_type log)
  = match body resp with
    | None => inl JSONDecodeError
    | Some (JObj members) =>
        match assoc "access_token" members with
        | Some token => inr token
        | None => inl (KeyError "access_token")
        end
    | Some _ => inl TypeError
    end.
Proof.
  intros Hsrv Hok.
  unfold get_access_token, bind, send, lift, raise_for_status,
    response_json, subscript.
  rewrite Hsrv. simpl. rewrite Hok. simpl.
  destruct (body resp) as [[| | | | |members]|]; simpl; done.
Qed.

Lemma X2_get_access_token_bad_body_witness :
  snd (get_access_token
         (token_server
            {| status_code := 200;
               body := Some (JObj [("error", JStr "invalid_client")]) |})
         "id" "secret" "https://lms.example.edu" "jwt" [])
  = inl (KeyError "access_token").
Proof.
  apply (X2_get_access_token_bad_body
           (token_server
              {| status_code := 200;
                 body := Some (JObj [("error", JStr "invalid_client")]) |})
           "id" "secret" "https://lms.example.edu" "jwt" []
           {| status_code := 200;
              body := Some (JObj [("error", JStr "invalid_client")]) |});
    reflexivity.
Defined.

(** *** Failures of a page fetch *)

(** X3. When the identity endpoint answers the first lookup with a 4xx or
    5xx status, a consumption yields nothing and raises that status
    failure, and the list endpoint is never requested. *)
Theorem X3_identity_failure_aborts srv edx_url tok who fuel :
  srv [] (identity_request edx_url tok) = Some who ->
  (400 <= status_code who < 600)%Z ->
  (0 < fuel)%nat ->
  consume srv fuel (get_edx_course_ids edx_url tok) []
  = {| yielded := [];
       outcome := Raised (HTTPStatusError (status_code who));
       requests := [identity_request edx_url tok] |}.
Proof.
  intros Hwho Hst%is_error_spec Hfuel.
  destruct fuel as [|fuel]; [lia |].
  rewrite consume_call. cbn [consume_from].
  unfold gen_next, _fetch_with_auth, _get_username, bind, send, lift,
    raise_for_status.
  rewrite Hwho. simpl. by rewrite Hst.
Qed.

Lemma X3_identity_failure_aborts_witness :
  consume (token_server {| status_code := 401; body := None |}) 3
    (get_edx_course_ids "https://lms.example.edu" "expired")
    []
  = {| yielded := [];
       outcome := Raised (HTTPStatusError 401);
       requests := [identity_request "https://lms.example.edu" "expired"] |}.
Proof.
  apply (X3_identity_failure_aborts
           (token_server {| status_code := 401; body := None |})
           "https://lms.example.edu" "expired"
           {| status_code := 401; body := None |} 3%nat).
  - reflexivity.
  - simpl. lia.
  - lia.
Defined.

(** *** Following a chain of cursors *)

Lemma fetch_trace_cons edx_url tok u us :
  fetch_trace edx_url tok (u :: us)
  = identity_request edx_url tok :: courses_request edx_url tok u
      :: fetch_trace edx_url tok us.
Proof. reflexivity. Qed.

Lemma gen_next_fetches srv edx_url tok g log who u p r c :
  about_to_fetch g ->
  srv log (identity_request edx_url tok) = Some who ->
  identity_of who u ->
  srv (log ++ [identity_request edx_url tok]) (courses_request edx_url tok u)
    = Some p ->
  page_of p r c ->
  gen_next srv edx_url tok g log
  = (log ++ [identity_request edx_url tok; courses_request edx_url tok u],
     inr (GenSuspended c, Some r)).
Proof.
  intros [-> | (c0 & -> & Hc0)] Hwho Hid Hp Hpage.
  - by eapply gen_next_first_page.
  - by eapply gen_next_later_page.
Qed.

Lemma page_requests_snoc_identity edx_url tok log :
  page_requests edx_url (log ++ [identity_request edx_url tok])
  = page_requests edx_url log.
Proof.
  rewrite page_requests_app. unfold page_requests at 2. cbn [List.filter].
  by rewrite identity_request_not_courses, app_nil_r.
Qed.

Lemma page_requests_snoc_fetch edx_url tok log u :
  length (page_requests edx_url
            (log ++ [identity_request edx_url tok;
                     courses_request edx_url tok u]))
  = S (length (page_requests edx_url log)).
Proof.
  rewrite page_requests_app. unfold page_requests at 2. cbn [List.filter].
  rewrite identity_request_not_courses, courses_request_is_courses.
  rewrite List.length_app. simpl. lia.
Qed.

(** The scripted server, from any point of its script on. *)
Lemma consume_from_chain edx_url tok who u more rest :
  identity_of who u ->
  forall rcs served log g fuel,
    about_to_fetch g ->
    length (page_requests edx_url log) = length served ->
    Forall2 (fun p rc => page_of p rc.1 rc.2) rest rcs ->
    cursor_chain rcs.*2 ->
    (length rest < fuel)%nat ->
    consume_from (paged_server edx_url who (served ++ rest ++ more)) fuel
      edx_url tok g log
    = {| yielded := rcs.*1;
         outcome := Exhausted;
         requests :=
           log ++ fetch_trace edx_url tok (replicate (length rest) u) |}.
Proof.
  intros Hid. induction rest as [|p rest IH];
    intros rcs served log g fuel Hg Hlog Hpages Hchain Hfuel.
  { apply Forall2_nil_inv_l in Hpages as ->. done. }
  apply Forall2_cons_inv_l in Hpages as ([r c] & rcs' & Hp & Hrest & ->).
  simpl in Hp. destruct fuel as [|fuel]; [lia |].
  cbn [consume_from].
  rewrite (gen_next_fetches _ _ _ _ _ who u p r c); [| done | | done | | done].
  2:{ apply paged_server_identity. }
  2:{ rewrite paged_server_page, page_requests_snoc_identity, Hlog.
      rewrite lookup_app_r by lia. by rewrite Nat.sub_diag. }
  cbn [length replicate]. rewrite fetch_trace_cons.
  destruct rest as [|p' rest].
  - apply Forall2_nil_inv_l in Hrest as ->. simpl in Hchain.
    destruct fuel as [|fuel]; [simpl in Hfuel; lia |].
    cbn [consume_from]. rewrite gen_next_stop by done. reflexivity.
  - assert (truthy c = true /\ cursor_chain rcs'.*2) as [Hc Hchain'].
    { apply Forall2_cons_inv_l in Hrest as (rc' & rcs'' & _ & _ & ->).
      exact Hchain. }
    replace (served ++ (p :: p' :: rest) ++ more)
      with ((served ++ [p]) ++ (p' :: rest) ++ more)
      by (by rewrite <- app_assoc).
    rewrite (IH rcs' (served ++ [p]) _ (GenSuspended c) fuel).
    + simpl. by rewrite <- app_assoc.
    + right. eauto.
    + rewrite page_requests_snoc_fetch, List.length_app. simpl. lia.
    + done.
    + done.
    + simpl in *. lia.
Qed.

(** X4. Against a server that serves the pages of a script in turn, where
    every page but the last read carries a truthy cursor and that one does
    not, a consumption given enough calls yields the [results] of exactly
    those pages, in order, and ends; it makes one identity lookup and one
    list request per page, and requests nothing the script holds beyond
    them. *)
Theorem X4_follows_cursors_to_the_end
    edx_url tok who u pages rcs more fuel :
  identity_of who u ->
  Forall2 (fun p rc => page_of p rc.1 rc.2) pages rcs ->
  cursor_chain rcs.*2 ->
  (length pages < fuel)%nat ->
  consume (paged_server edx_url who (pages ++ more)) fuel
    (get_edx_course_ids edx_url tok) []
  = {| yielded := rcs.*1;
       outcome := Exhausted;
       requests := fetch_trace edx_url tok (replicate (length pages) u) |}.
Proof.
  intros Hid Hpages Hchain Hfuel. rewrite consume_call.
  exact (consume_from_chain edx_url tok who u more pages Hid rcs []
           [] GenCreated fuel (or_introl eq_refl) eq_refl Hpages Hchain
           Hfuel).
Qed.

Lemma X4_follows_cursors_to_the_end_witness :
  consume
    (paged_server "https://lms.example.edu" (who_is "alice")
       ([ page [course "a"] (Some (JStr "X"));
          page [course "b"] (Some (JStr "Y"));
          page [course "c"] None ] ++ [page [course "d"] None]))
    9 (get_edx_course_ids "https://lms.example.edu" "t0k3n") []
  = {| yielded :=
         [ (JArr [course "a"], JStr "X");
           (JArr [course "b"], JStr "Y");
           (JArr [course "c"], JNull) ].*1;
       outcome := Exhausted;
       requests :=
         fetch_trace "https://lms.example.edu" "t0k3n"
           (replicate 3 (JStr "alice")) |}.
Proof.
  apply (X4_follows_cursors_to_the_end
           "https://lms.example.edu" "t0k3n" (who_is "alice") (JStr "alice")
           [ page [course "a"] (Some (JStr "X"));
             page [course "b"] (Some (JStr "Y"));
             page [course "c"] None ]
           [ (JArr [course "a"], JStr "X");
             (JArr [course "b"], JStr "Y");
             (JArr [course "c"], JNull) ]
           [page [course "d"] None] 9%nat).
  - split; [reflexivity |]. eexists. split; reflexivity.
  - repeat constructor; do 2 eexists; repeat split; reflexivity.
  - simpl. auto.
  - simpl. lia.
Defined.

(** *** A server without memory *)

Lemma consume_from_stateless answer edx_url tok who u p r c :
  answer (identity_request edx_url tok) = Some who ->
  identity_of who u ->
  answer (courses_request edx_url tok u) = Some p ->
  page_of p r c ->
  truthy c = true ->
  forall fuel g log,
    about_to_fetch g ->
    consume_from (stateless_server answer) fuel edx_url tok g log
    = {| yielded := replicate fuel r;
         outcome := StillRunning;
         requests := log ++ fetch_trace edx_url tok (replicate fuel u) |}.
Proof.
  intros Hwho Hid Hp Hpage Hc.
  induction fuel as [|fuel IH]; intros g log Hg.
  { simpl. by rewrite app_nil_r. }
  cbn [consume_from].
  rewrite (gen_next_fetches _ _ _ _ _ who u p r c); [| done..].
  rewrite IH by (right; eauto). simpl. by rewrite <- app_assoc.
Qed.

(** X5. Every page request is the same request, so a server that answers
    by the request alone returns the same page every time.  If that page
    carries a truthy cursor, the consumption never ends: however many
    elements the consumer takes, it gets the first page again, and the
    generator is still running. *)
Theorem X5_stateless_server_never_ends
    answer edx_url tok who u p r c fuel :
  answer (identity_request edx_url tok) = Some who ->
  identity_of who u ->
  answer (courses_request edx_url tok u) = Some p ->
  page_of p r c ->
  truthy c = true ->
  consume (stateless_server answer) fuel (get_edx_course_ids edx_url tok) []
  = {| yielded := replicate fuel r;
       outcome := StillRunning;
       requests := fetch_trace edx_url tok (replicate fuel u) |}.
Proof.
  intros Hwho Hid Hp Hpage Hc. rewrite consume_call.
  by rewrite (consume_from_stateless answer edx_url tok who u p r c
                Hwho Hid Hp Hpage Hc fuel GenCreated [] (or_introl eq_refl)).
Qed.

Lemma X5_stateless_server_never_ends_witness :
  consume (stateless_server (looping_catalog "https://lms.example.edu")) 4
    (get_edx_course_ids "https://lms.example.edu" "t0k3n") []
  = {| yielded := replicate 4 (JArr [course "a"]);
       outcome := StillRunning;
       requests :=
         fetch_trace "https://lms.example.edu" "t0k3n"
           (replicate 4 (JStr "alice")) |}.
Proof.
  apply (X5_stateless_server_never_ends
           (looping_catalog "https://lms.example.edu")
           "https://lms.example.edu" "t0k3n"
           (who_is "alice") (JStr "alice")
           (page [course "a"] (Some (JStr "X"))) (JArr [course "a"])
           (JStr "X") 4%nat).
  - reflexivity.
  - split; [reflexivity |]. eexists. split; reflexivity.
  - reflexivity.
  - split; [reflexivity |]. do 2 eexists. repeat split; reflexivity.
  - reflexivity.
Defined.

(** *** Laziness *)

(** How many page fetches a consumption has made, against what it has
    yielded. *)
Lemma consume_from_counts srv edx_url tok fuel g log :
  exists us tail,
    requests (consume_from srv fuel edx_url tok g log)
    = log ++ fetch_trace edx_url tok us ++ tail /\
    (length (yielded (consume_from srv fuel edx_url tok g log)) <= fuel)%nat /\
    match outcome (consume_from srv fuel edx_url tok g log) with
    | Exhausted =>
        tail = [] /\
        length us = length (yielded (consume_from srv fuel edx_url tok g log))
    | StillRunning =>
        tail = [] /\
        length us = fuel /\
        length (yielded (consume_from srv fuel edx_url tok g log)) = fuel
    | Raised _ =>
        (tail = [] /\
         length us
         = S (length (yielded (consume_from srv fuel edx_url tok g log))))
        \/ (tail = [identity_request edx_url tok] /\
            length us
            = length (yielded (consume_from srv fuel edx_url tok g log)))
    end.
Proof.
  revert g log. induction fuel as [|fuel IH]; intros g log.
  { exists [], []. simpl. rewrite app_nil_r. auto. }
  cbn [consume_from].
  destruct (gen_next srv edx_url tok g log) as [log1 res] eqn:Hn.
  apply gen_next_shape in Hn
    as [[-> [g' ->]]|[[-> [e ->]]|(u & Hu & -> & [[e ->]|(g' & v & ->)])]].
  - exists [], []. simpl. rewrite app_nil_r. split; [done |]. split; [lia |].
    done.
  - exists [], [identity_request edx_url tok]. simpl.
    split; [done |]. split; [lia |]. by right.
  - exists [u], []. simpl. split; [done |]. split; [lia |]. by left.
  - destruct (IH g' (log ++ [identity_request edx_url tok;
                             courses_request edx_url tok u]))
      as (us & tail & Hreq & Hlen & Hout).
    exists (u :: us), tail. cbn [yielded outcome requests].
    rewrite Hreq, <- app_assoc. simpl.
    split; [done |]. split; [lia |].
    destruct (outcome _).
    + destruct Hout as [-> ->]. done.
    + destruct Hout as [[-> ->]|[-> ->]]; auto.
    + destruct Hout as (-> & -> & ->). done.
Qed.

(** X6. The generator fetches a page only when the consumer asks for the
    next element: after any number of calls, against any server, it has
    made as many requests to the list endpoint as it has yielded elements,
    or one more when the last fetch raised; and it has yielded no more
    elements than it was asked for. *)
Theorem X6_pages_are_fetched_on_demand srv edx_url tok fuel :
  (length (yielded (consume srv fuel (get_edx_course_ids edx_url tok) []))
   <= fuel)%nat /\
  match outcome (consume srv fuel (get_edx_course_ids edx_url tok) []) with
  | Raised _ =>
      length (yielded (consume srv fuel (get_edx_course_ids edx_url tok) []))
      <= length (page_requests edx_url
                   (requests
                      (consume srv fuel (get_edx_course_ids edx_url tok) [])))
      <= S (length (yielded
                      (consume srv fuel (get_edx_course_ids edx_url tok) [])))
  | _ =>
      length (page_requests edx_url
                (requests
                   (consume srv fuel (get_edx_course_ids edx_url tok) [])))
      = length (yielded
                  (consume srv fuel (get_edx_course_ids edx_url tok) []))
  end%nat.
Proof.
  rewrite !consume_call.
  destruct (consume_from_counts srv edx_url tok fuel GenCreated [])
    as (us & tail & Hreq & Hlen & Hout).
  split; [done |]. rewrite Hreq. simpl.
  rewrite page_requests_app, page_requests_fetch_trace, List.length_app,
    length_map.
  destruct (outcome _).
  - destruct Hout as [-> ->]. simpl. lia.
  - destruct Hout as [[-> ->]|[-> ->]].
    + simpl. lia.
    + unfold page_requests. cbn [List.filter].
      rewrite identity_request_not_courses. simpl. lia.
  - destruct Hout as (-> & -> & ->). simpl. lia.
Qed.

(** *** What every request looks like *)

Lemma fetch_trace_authenticated edx_url tok us :
  Forall (authenticated_get tok) (fetch_trace edx_url tok us).
Proof.
  induction us as [|u us IH]; [constructor |].
  rewrite fetch_trace_cons. by repeat constructor.
Qed.

(** X7. Every request a consumption issues, to either endpoint and against
    any server, is a GET without a body that carries the access token in
    the header [Authorization: JWT <token>]. *)
Theorem X7_requests_carry_the_token srv edx_url tok fuel :
  Forall (authenticated_get tok)
    (requests (consume srv fuel (get_edx_course_ids edx_url tok) [])).
Proof.
  rewrite consume_call.
  destruct (consume_shape srv edx_url tok fuel GenCreated [])
    as (us & tail & -> & _ & _ & Hout).
  simpl. apply Forall_app. split; [apply fetch_trace_authenticated |].
  assert (tail = [] \/ tail = [identity_request edx_url tok]) as [-> | ->].
  { destruct (outcome _); tauto. }
  - constructor.
  - by repeat constructor.
Qed.

(** *** A page that cannot be read *)

Lemma fetch_page_error srv edx_url tok log who u p :
  srv log (identity_request edx_url tok) = Some who ->
  identity_of who u ->
  srv (log ++ [identity_request edx_url tok]) (courses_request edx_url tok u)
    = Some p ->
  is_error (status_code p) = true ->
  _fetch_with_auth srv edx_url tok log
  = (log ++ [identity_request edx_url tok; courses_request edx_url tok u],
     inl (HTTPStatusError (status_code p))).
Proof.
  intros Hwho [Hok (m & Hb & Hu)] Hp Herr.
  unfold _fetch_with_auth, _get_username, bind, send, lift,
    raise_for_status, response_json, subscript.
  rewrite Hwho. simpl. rewrite Hok. simpl. rewrite Hb. simpl. rewrite Hu.
  rewrite Hp. simpl. rewrite Herr. by rewrite <- app_assoc.
Qed.

Lemma gen_next_page_error srv edx_url tok g log who u p :
  about_to_fetch g ->
  srv log (identity_request edx_url tok) = Some who ->
  identity_of who u ->
  srv (log ++ [identity_request edx_url tok]) (courses_request edx_url tok u)
    = Some p ->
  is_error (status_code p) = true ->
  gen_next srv edx_url tok g log
  = (log ++ [identity_request edx_url tok; courses_request edx_url tok u],
     inl (HTTPStatusError (status_code p))).
Proof.
  intros Hg Hwho Hid Hp Herr.
  pose proof (fetch_page_error _ _ _ _ _ _ _ Hwho Hid Hp Herr) as Hf.
  destruct Hg as [-> | (c0 & -> & Hc0)]; unfold gen_next; [| rewrite Hc0];
    unfold bind at 1; by rewrite Hf.
Qed.

(** X8. A failure in the middle of the sequence ends it there: when page 1
    is read and carries a truthy cursor and the request for page 2 is
    answered with a 4xx or 5xx status, the consumption has yielded page 1,
    raises that status failure, and asks for nothing more. *)
Theorem X8_failed_page_ends_the_sequence
    edx_url tok who u p1 r1 c1 p2 more fuel :
  identity_of who u ->
  page_of p1 r1 c1 -> truthy c1 = true ->
  (400 <= status_code p2 < 600)%Z ->
  (2 <= fuel)%nat ->
  consume (paged_server edx_url who (p1 :: p2 :: more)) fuel
    (get_edx_course_ids edx_url tok) []
  = {| yielded := [r1];
       outcome := Raised (HTTPStatusError (status_code p2));
       requests := fetch_trace edx_url tok [u; u] |}.
Proof.
  intros Hid Hp1 Hc1 Hst%is_error_spec Hfuel.
  destruct fuel as [|[|fuel]]; [lia.. |].
  rewrite consume_call. cbn [consume_from].
  rewrite (gen_next_first_page _ _ _ _ who u p1 r1 c1);
    [| apply paged_server_identity | done | | done].
  2:{ rewrite paged_server_page, page_requests_snoc_identity. done. }
  rewrite (gen_next_page_error _ _ _ _ _ who u p2);
    [| right; eauto | apply paged_server_identity | done | | done].
  2:{ rewrite paged_server_page, page_requests_snoc_identity.
      by rewrite page_requests_snoc_fetch. }
  reflexivity.
Qed.

Lemma X8_failed_page_ends_the_sequence_witness :
  consume
    (paged_server "https://lms.example.edu" (who_is "alice")
       [ page [course "a"] (Some (JStr "X")); server_error;
         page [course "c"] None ])
    5 (get_edx_course_ids "https://lms.example.edu" "t0k3n") []
  = {| yielded := [JArr [course "a"]];
       outcome := Raised (HTTPStatusError (status_code server_error));
       requests :=
         fetch_trace "https://lms.example.edu" "t0k3n"
           [JStr "alice"; JStr "alice"] |}.
Proof.
  apply (X8_failed_page_ends_the_sequence
           "https://lms.example.edu" "t0k3n" (who_is "alice") (JStr "alice")
           (page [course "a"] (Some (JStr "X"))) (JArr [course "a"]) (JStr "X")
           server_error [page [course "c"] None] 5%nat).
  - split; [reflexivity |]. eexists. split; reflexivity.
  - split; [reflexivity |]. do 2 eexists. repeat split; reflexivity.
  - reflexivity.
  - simpl. lia.
  - lia.
Defined.

(** X9. The first page is yielded only after its cursor has been read: a
    successful first answer that has [results] but no [pagination] member
    makes the generator raise [KeyError] for [pagination], and its results
    are never yielded. *)
Theorem X9_page_without_pagination_is_lost
    srv edx_url tok who u p members r fuel :
  srv [] (identity_request edx_url tok) = Some who ->
  identity_of who u ->
  srv [identity_request edx_url tok] (courses_request edx_url tok u)
    = Some p ->
  is_error (status_code p) = false ->
  body p = Some (JObj members) ->
  assoc "results" members = Some r ->
  assoc "pagination" members = None ->
  (0 < fuel)%nat ->
  consume srv fuel (get_edx_course_ids edx_url tok) []
  = {| yielded := [];
       outcome := Raised (KeyError "pagination");
       requests := fetch_trace edx_url tok [u] |}.
Proof.
  intros Hwho Hid Hp Hok Hb Hr Hpg Hfuel.
  destruct fuel as [|fuel]; [lia |].
  rewrite consume_call. cbn [consume_from].
  unfold gen_next, bind at 1.
  rewrite (fetch_ok _ _ _ _ who u p (JObj members)); [| done..].
  unfold bind, lift, subscript. simpl. rewrite Hr. simpl. by rewrite Hpg.
Qed.

Lemma X9_page_without_pagination_is_lost_witness :
  consume
    (paged_server "https://lms.example.edu" (who_is "alice")
       [page_without_pagination])
    5 (get_edx_course_ids "https://lms.example.edu" "t0k3n") []
  = {| yielded := [];
       outcome := Raised (KeyError "pagination");
       requests :=
         fetch_trace "https://lms.example.edu" "t0k3n" [JStr "alice"] |}.
Proof.
  apply (X9_page_without_pagination_is_lost
           (paged_server "https://lms.example.edu" (who_is "alice")
              [page_without_pagination])
           "https://lms.example.edu" "t0k3n" (who_is "alice") (JStr "alice")
           page_without_pagination
           [("results", JArr [course "a"])] (JArr [course "a"]) 5%nat).
  - reflexivity.
  - split; [reflexivity |]. eexists. split; reflexivity.
  - reflexivity.
  - reflexivity.
  - reflexivity.
  - reflexivity.
  - reflexivity.
  - lia.
Defined.

End ApiClientExtra.

(* ===================================================================== *)
(** * Further properties of the MITx BigQuery solids *)
(* ===================================================================== *)

Module SolidsExtra.

Import PyStr PyStrFacts Solids SolidsProps.

(** *** Failures *)

Section Failures.

Variable context : SolidExecutionContext.
Variable minimum : Z.
Variable file_system : FileSystem.
Variable output_folder : string.

Local Abbreviation body :=
  (process_dataset context minimum file_system output_folder).

Lemma process_dataset_failure d s e :
  failure context minimum file_system output_folder d = Some e ->
  body d s = raise e s.
Proof.
  unfold failure, process_dataset.
  destruct (get_table _ _) as [e'|t].
  { destruct (is_not_found e'); [done |]. by intros [= ->]. }
  destruct (_ >? _)%Z; [| done].
  unfold bind, lift, write_parquet, yield_, list_rows, raise. simpl.
  destruct (read_rows _ _ _) as [e'|rs]; simpl; [by intros [= ->] |].
  by intros ->.
Qed.

(** The loop over a list that starts with datasets that meet no failure. *)
Lemma for_each_app_tolerated pre rest s :
  Forall (tolerated context minimum file_system output_folder) pre ->
  for_each body (pre ++ rest) s
  = let r := for_each body rest
               (foldl (store_after context minimum output_folder) s pre) in
    {| emitted :=
         flat_map (events_of context minimum output_folder) pre ++ emitted r;
       final := final r;
       result := result r |}.
Proof.
  revert s. induction pre as [|d pre IH]; intros s Hpre.
  { simpl. by destruct (for_each body rest s). }
  apply Forall_cons_1 in Hpre as [Hd Hpre].
  pose proof (process_dataset_tolerated _ _ _ _ d s Hd) as Hres.
  destruct (process_dataset_completed _ _ _ _ d s Hres) as [Hem Hfin].
  cbn [app for_each flat_map foldl]. unfold bind at 1.
  rewrite Hres, Hem, Hfin, (IH _ Hpre). cbn zeta. simpl.
  by rewrite <- app_assoc.
Qed.

End Failures.

(** X10. A failure other than a missing table is fatal and nothing is
    rolled back: at the first dataset whose lookup, row read or file
    opening fails, the run raises that failure; it has yielded the records
    of the datasets before it and keeps the files written for them,
    yields and writes nothing for the datasets after it, and yields no
    output. *)
Theorem X10_first_failure_ends_the_run
    rt context pre D post s minimum fsys folder e :
  modified_minimum rt context = inr minimum ->
  from_uri rt (outputs_dir context) = inr (fsys, folder) ->
  Forall (tolerated context minimum fsys folder) pre ->
  failure context minimum fsys folder D = Some e ->
  download_user_data rt context (pre ++ D :: post) s
  = {| emitted := flat_map (events_of context minimum folder) pre;
       final := foldl (store_after context minimum folder) s pre;
       result := inl e |}.
Proof.
  intros Hmin Huri Hpre HD.
  rewrite (download_user_data_unfold _ _ _ _ _ _ _ Hmin Huri).
  rewrite (for_each_app_tolerated _ _ _ _ _ _ _ Hpre).
  assert (forall s', for_each (process_dataset context minimum fsys folder)
                       (D :: post) s' = raise e s') as ->.
  { intros s'. cbn [for_each]. unfold bind.
    by rewrite (process_dataset_failure _ _ _ _ _ _ _ HD). }
  simpl. by rewrite app_nil_r.
Qed.

Lemma X10_first_failure_ends_the_run_witness :
  download_user_data (example_runtime 737699) guarded_context
    ([run2_latest] ++ run3_latest :: [run4_latest]) empty_store
  = {| emitted :=
         flat_map
           (events_of guarded_context
              ((737699 - 3600) * microseconds_per_day) "bucket/mitx")
           [run2_latest];
       final :=
         foldl
           (store_after guarded_context
              ((737699 - 3600) * microseconds_per_day) "bucket/mitx")
           empty_store [run2_latest];
       result := inl (WarehouseError "403 Forbidden") |}.
Proof.
  apply (X10_first_failure_ends_the_run
           (example_runtime 737699) guarded_context
           [run2_latest] run3_latest [run4_latest] empty_store
           ((737699 - 3600) * microseconds_per_day)%Z
           {| open_error := fun _ => None |} "bucket/mitx"
           (WarehouseError "403 Forbidden")).
  - reflexivity.
  - reflexivity.
  - repeat constructor. by exists example_rows.
  - reflexivity.
Defined.

(** X11. The boundary is computed before anything else, in the range of
    [datetime]: when [last_modified_days] reaches back beyond the first
    day of year 1, the solid raises [OverflowError]; it has written no
    file and yielded nothing, not even its output. *)
Theorem X11_boundary_out_of_range rt context datasets s :
  (utcnow rt < last_modified_days context * microseconds_per_day)%Z ->
  download_user_data rt context datasets s
  = {| emitted := []; final := s; result := inl OverflowError |}.
Proof.
  intros Hlt.
  assert (modified_minimum rt context = inl OverflowError) as Hmin.
  { unfold modified_minimum, timedelta_days, datetime_sub.
    destruct (_ <=? _)%Z; [| done].
    assert ((0 <=? utcnow rt
                   - last_modified_days context * microseconds_per_day)%Z
            = false) as -> by (apply Z.leb_gt; lia).
    done. }
  unfold download_user_data, bind, lift. by rewrite Hmin.
Qed.

Lemma X11_boundary_out_of_range_witness :
  download_user_data (example_runtime 737699)
    (with_days 1000000 example_context) [run1_latest; run2_latest]
    empty_store
  = {| emitted := []; final := empty_store; result := inl OverflowError |}.
Proof.
  apply (X11_boundary_out_of_range (example_runtime 737699)
           (with_days 1000000 example_context) [run1_latest; run2_latest]
           empty_store).
  vm_compute. reflexivity.
Defined.

(** *** Nothing new *)

(** X12. When every dataset's table is missing or not newer than the
    boundary, the run writes nothing, whether or not rows could be read:
    it completes leaving the store as it found it, and yields only its
    output. *)
Theorem X12_nothing_fresh_nothing_done
    rt context datasets s minimum fsys folder :
  modified_minimum rt context = inr minimum ->
  from_uri rt (outputs_dir context) = inr (fsys, folder) ->
  Forall (missing_or_stale context minimum) datasets ->
  download_user_data rt context datasets s
  = {| emitted := [Output folder "user_query_folder"];
       final := s;
       result := inr tt |}.
Proof.
  intros Hmin Huri Hds.
  rewrite (download_user_data_unfold _ _ _ _ _ _ _ Hmin Huri).
  assert (for_each (process_dataset context minimum fsys folder) datasets s
          = ret tt s) as ->; [| done].
  induction Hds as [|d ds Hd _ IH]; [done |].
  cbn [for_each]. unfold bind.
  assert (process_dataset context minimum fsys folder d s = ret tt s) as ->.
  { unfold missing_or_stale in Hd. unfold process_dataset.
    destruct (get_table _ _) as [e|t]; [by rewrite Hd |].
    assert ((modified t >? minimum)%Z = false) as ->; [| done].
    rewrite Z.gtb_ltb. apply Z.ltb_ge. lia. }
  simpl. by rewrite IH.
Qed.

Lemma X12_nothing_fresh_nothing_done_witness :
  download_user_data (example_runtime 737699) (with_days 0 example_context)
    [run1_latest; run2_latest] empty_store
  = {| emitted := [Output "bucket/mitx" "user_query_folder"];
       final := empty_store;
       result := inr tt |}.
Proof.
  apply (X12_nothing_fresh_nothing_done (example_runtime 737699)
           (with_days 0 example_context) [run1_latest; run2_latest]
           empty_store (737699 * microseconds_per_day)%Z
           {| open_error := fun _ => None |} "bucket/mitx").
  - reflexivity.
  - reflexivity.
  - repeat constructor. vm_compute. discriminate.
Defined.

(** *** What every run keeps, whether it completes or not *)

Section EveryRun.

Variable context : SolidExecutionContext.
Variable minimum : Z.
Variable file_system : FileSystem.
Variable output_folder : string.

Local Abbreviation body :=
  (process_dataset context minimum file_system output_folder).

(** The loop body does one of three things. *)
Lemma process_dataset_cases d s :
  body d s = ret tt s
  \/ (exists e, body d s = raise e s)
  \/ (exists rows,
        body d s
        = {| emitted :=
               [Materialized
                  (materialization d (file_path output_folder d) rows)];
             final :=
               {| files :=
                    <[file_path output_folder d := to_arrow rows]> (files s);
                  writes := writes s ++ [file_path output_folder d] |};
             result := inr tt |}).
Proof.
  unfold process_dataset.
  destruct (get_table _ _) as [e|t].
  { destruct (is_not_found e); [by left | right; left; eauto]. }
  destruct (_ >? _)%Z; [| by left].
  unfold bind, lift, write_parquet, yield_. simpl.
  destruct (list_rows _ _ _) as [e|rows]; simpl; [right; left; by exists e |].
  destruct (open_error _ _) as [e|]; simpl; [right; left; by exists e |].
  right; right. by exists rows.
Qed.

(** A property of stores and events that every step of the loop keeps is
    kept by the loop. *)
Lemma for_each_keeps (P : Store -> list Event -> Store -> Prop) ds :
  (forall s, P s [] s) ->
  (forall s evs s' d rows,
     d ∈ ds ->
     P s evs s' ->
     P s (evs ++ [Materialized
                    (materialization d (file_path output_folder d) rows)])
       {| files := <[file_path output_folder d := to_arrow rows]> (files s');
          writes := writes s' ++ [file_path output_folder d] |}) ->
  forall s, P s (emitted (for_each body ds s)) (final (for_each body ds s)).
Proof.
  intros Hnil Hstep.
  assert (forall l s0 evs s,
            (forall d, d ∈ l -> d ∈ ds) ->
            P s0 evs s ->
            P s0 (evs ++ emitted (for_each body l s))
              (final (for_each body l s))) as Hgen.
  { induction l as [|d l IH]; intros s0 evs s Hl HP.
    { simpl. by rewrite app_nil_r. }
    cbn [for_each]. unfold bind.
    destruct (process_dataset_cases d s) as [->|[[e ->]|[rows ->]]]; simpl.
    - apply IH; [| done]. intros x Hx. apply Hl. by right.
    - by rewrite app_nil_r.
    - rewrite (cons_middle _ evs), app_assoc. apply IH.
      + intros x Hx. apply Hl. by right.
      + apply Hstep; [| done]. apply Hl. by left. }
  intros s. apply (Hgen ds s [] s); [done | apply Hnil].
Qed.

End EveryRun.

(** The run is the loop, when it gets that far. *)
Lemma download_user_data_keeps
    (P : Store -> list Event -> Store -> Prop) rt context datasets s :
  P s [] s ->
  (forall minimum fsys folder,
     from_uri rt (outputs_dir context) = inr (fsys, folder) ->
     let r := for_each (process_dataset context minimum fsys folder)
                datasets s in
     P s (emitted r) (final r) /\
     (P s (emitted r) (final r) ->
      P s (emitted r ++ [Output folder "user_query_folder"]) (final r))) ->
  P s (emitted (download_user_data rt context datasets s))
    (final (download_user_data rt context datasets s)).
Proof.
  intros Hnil Hloop.
  destruct (modified_minimum rt context) as [e|minimum] eqn:Hmin.
  { unfold download_user_data, bind, lift. by rewrite Hmin. }
  destruct (from_uri rt (outputs_dir context)) as [e|[fsys folder]] eqn:Huri.
  { unfold download_user_data, bind, lift. rewrite Hmin. simpl.
    by rewrite Huri. }
  rewrite (download_user_data_unfold _ _ _ _ _ _ _ Hmin Huri). cbn zeta.
  destruct (Hloop minimum fsys folder eq_refl) as [Hr Hout].
  destruct (result _); simpl; auto.
Qed.



(** X14. The solid only ever writes the files of its datasets: in every
    run, completed or not, a path that is not the file path of one of the
    input datasets holds after the run what it held before, and no file
    that existed before the run is missing after it. *)
Theorem X14_other_files_are_left_alone
    rt context datasets s fsys folder :
  from_uri rt (outputs_dir context) = inr (fsys, folder) ->
  (forall p,
     p ∉ (file_path folder <$> datasets) ->
     files (final (download_user_data rt context datasets s)) !! p
     = files s !! p) /\
  (forall p,
     is_Some (files s !! p) ->
     is_Some (files (final (download_user_data rt context datasets s)) !! p)).
Proof.
  intros Huri.
  apply (download_user_data_keeps
           (fun s0 _ s1 =>
              (forall p, p ∉ (file_path folder <$> datasets) ->
                         files s1 !! p = files s0 !! p) /\
              (forall p, is_Some (files s0 !! p) -> is_Some (files s1 !! p)))).
  { done. }
  intros minimum fsys' folder' Huri'. cbn zeta.
  assert (folder' = folder) as -> by congruence.
  split; [| done].
  apply (for_each_keeps context minimum fsys' folder
           (fun s0 _ s1 =>
              (forall p, p ∉ (file_path folder <$> datasets) ->
                         files s1 !! p = files s0 !! p) /\
              (forall p, is_Some (files s0 !! p) -> is_Some (files s1 !! p)))).
  - done.
  - intros s0 evs s1 d rows Hd [Hframe Hkeep]. simpl. split.
    + intros p Hp. rewrite lookup_insert_ne; [by apply Hframe |].
      intros <-. apply Hp. by apply list_elem_of_fmap_2.
    + intros p Hsome.
      destruct (decide (file_path folder d = p)) as [<-|Hne].
      * by rewrite lookup_insert_eq.
      * rewrite lookup_insert_ne by done. by apply Hkeep.
Qed.

Lemma X14_other_files_are_left_alone_witness :
  files (final (download_user_data (example_runtime 737699) example_context
                  [run1_latest; run2_latest]
                  {| files := {[ "bucket/mitx/README" :=
                                   {| arrow_schema := []; arrow_rows := [] |} ]};
                     writes := [] |}))
    !! "bucket/mitx/README"
  = Some {| arrow_schema := []; arrow_rows := [] |}.
Proof.
  rewrite (proj1 (X14_other_files_are_left_alone
                    (example_runtime 737699) example_context
                    [run1_latest; run2_latest]
                    {| files := {[ "bucket/mitx/README" :=
                                     {| arrow_schema := [];
                                        arrow_rows := [] |} ]};
                       writes := [] |}
                    {| open_error := fun _ => None |} "bucket/mitx"
                    eq_refl)).
  - reflexivity.
  - cbn [fmap list_fmap].
    repeat (apply not_elem_of_cons; split; [vm_compute; discriminate |]).
    apply not_elem_of_nil.
Defined.

(** *** The pipeline *)

(** X15. The pipeline extracts current snapshots only: if listing the
    datasets fails the pipeline raises that failure and the download solid
    does nothing; otherwise the pipeline is the download over the listed
    datasets that [get_datasets] keeps, and every materialization record
    it yields, in a run that completes or not, carries the identifier of a
    listed dataset that ends with "_latest". *)
Theorem X15_pipeline_extracts_current_snapshots rt context s :
  match list_datasets (bigquery_db context) with
  | inl e =>
      mitx_bigquery_pipeline rt context s
      = {| emitted := []; final := s; result := inl e |}
  | inr listed =>
      exists kept,
        get_datasets context = inr kept /\
        mitx_bigquery_pipeline rt context s
        = download_user_data rt context kept s /\
        forall m,
          Materialized m ∈ emitted (mitx_bigquery_pipeline rt context s) ->
          has_suffix (asset_key m) "_latest" /\
          asset_key m ∈ (dataset_id <$> listed)
  end.
Proof.
  unfold mitx_bigquery_pipeline, get_datasets.
  destruct (list_datasets _) as [e|listed]; [done |].
  eexists. split; [done |].
  assert (forall m : M unit,
            bind (lift (inr (filter
                               (fun d => endswith (dataset_id d) "_latest" = true)
                               listed)))
              (fun datasets => download_user_data rt context datasets) s
            = download_user_data rt context
                (filter (fun d => endswith (dataset_id d) "_latest" = true)
                   listed) s) as Hrun.
  { intros _. unfold bind at 1, lift at 1. simpl.
    by destruct (download_user_data _ _ _ _). }
  rewrite (Hrun (ret tt)). split; [done |].
  set (kept := filter _ listed).
  assert (forall m,
            Materialized m ∈ emitted (download_user_data rt context kept s) ->
            exists d, d ∈ kept /\ asset_key m = dataset_id d) as Hkeys.
  { apply (download_user_data_keeps
             (fun _ evs _ =>
                forall m, Materialized m ∈ evs ->
                          exists d, d ∈ kept /\ asset_key m = dataset_id d)).
    { intros m Hm. by apply elem_of_nil in Hm. }
    intros minimum fsys folder _. cbn zeta. split.
    - apply (for_each_keeps context minimum fsys folder
               (fun _ evs _ =>
                  forall m, Materialized m ∈ evs ->
                            exists d, d ∈ kept /\ asset_key m = dataset_id d)).
      + intros _ m Hm. by apply elem_of_nil in Hm.
      + intros _ evs _ d rows Hd IH m [Hm|Hm]%elem_of_app; [by apply IH |].
        apply list_elem_of_singleton in Hm as [= ->]. by exists d.
    - intros IH m [Hm|Hm]%elem_of_app; [by apply IH |].
      by apply list_elem_of_singleton in Hm. }
  intros m Hm. destruct (Hkeys m Hm) as (d & Hd & ->).
  apply list_elem_of_filter in Hd as [Hsuffix Hd]. split.
  - by apply endswith_spec.
  - by apply list_elem_of_fmap_2.
Qed.

(** *** The threshold *)

(** X16. A longer window extracts no less: of two completed runs at the
    same time against the same warehouse, every event the run with the
    smaller [last_modified_days] yields is also yielded by the run with
    the larger one. *)
Theorem X16_longer_window_extracts_more
    rt context datasets days days' s s' :
  (days <= days')%Z ->
  result (download_user_data rt (with_days days context) datasets s)
  = inr tt ->
  result (download_user_data rt (with_days days' context) datasets s')
  = inr tt ->
  Forall
    (fun ev =>
       ev ∈ emitted (download_user_data rt (with_days days' context)
                       datasets s'))
    (emitted (download_user_data rt (with_days days context) datasets s)).
Proof.
  intros Hdays Hrun Hrun'.
  destruct (download_user_data_effects _ _ _ _ Hrun)
    as (min & fsys & folder & Hmin & Huri & _ & -> & _).
  destruct (download_user_data_effects _ _ _ _ Hrun')
    as (min' & fsys' & folder' & Hmin' & Huri' & _ & -> & _).
  simpl in Huri, Huri'. assert (folder' = folder) as -> by congruence.
  apply modified_minimum_spec in Hmin, Hmin'. simpl in Hmin, Hmin'.
  assert (min' <= min)%Z as Hle.
  { subst. unfold microseconds_per_day. lia. }
  apply Forall_forall. intros ev [Hev|Hev]%elem_of_app;
    apply elem_of_app; [left | by right].
  apply list_elem_of_In, in_flat_map in Hev as (d & Hd & Hev).
  apply list_elem_of_In, in_flat_map. exists d. split; [done |].
  revert Hev. unfold events_of.
  change (extraction (with_days days context) min d)
    with (extraction context min d).
  change (extraction (with_days days' context) min' d)
    with (extraction context min' d).
  destruct (extraction context min d) as [rows|] eqn:Hex; [| done].
  by rewrite (extraction_mono context min' min d rows Hle Hex).
Qed.

Lemma X16_longer_window_extracts_more_witness :
  Forall
    (fun ev =>
       ev ∈ emitted (download_user_data (example_runtime 737699)
                       (with_days 3600 example_context)
                       [run1_latest; run2_latest] empty_store))
    (emitted (download_user_data (example_runtime 737699)
                (with_days 5 example_context)
                [run1_latest; run2_latest] empty_store)).
Proof.
  apply (X16_longer_window_extracts_more (example_runtime 737699)
           example_context [run1_latest; run2_latest] 5 3600
           empty_store empty_store).
  - lia.
  - vm_compute. reflexivity.
  - vm_compute. reflexivity.
Defined.

(** *** What the solid never looks at *)

Lemma process_dataset_ignores_store context minimum fsys folder d s s' :
  emitted (process_dataset context minimum fsys folder d s)
  = emitted (process_dataset context minimum fsys folder d s') /\
  result (process_dataset context minimum fsys folder d s)
  = result (process_dataset context minimum fsys folder d s').
Proof.
  unfold process_dataset.
  destruct (get_table _ _) as [e|t].
  { by destruct (is_not_found e). }
  destruct (_ >? _)%Z; [| done].
  unfold bind, lift, write_parquet, yield_. simpl.
  destruct (list_rows _ _ _) as [e|rows]; simpl; [done |].
  destruct (open_error _ _); simpl; done.
Qed.

Lemma for_each_ignores_store context minimum fsys folder ds s s' :
  emitted (for_each (process_dataset context minimum fsys folder) ds s)
  = emitted (for_each (process_dataset context minimum fsys folder) ds s') /\
  result (for_each (process_dataset context minimum fsys folder) ds s)
  = result (for_each (process_dataset context minimum fsys folder) ds s').
Proof.
  revert s s'. induction ds as [|d ds IH]; intros s s'; [done |].
  cbn [for_each]. unfold bind.
  destruct (process_dataset_ignores_store context minimum fsys folder d s s')
    as [Hem Hres].
  rewrite Hem, Hres.
  destruct (result (process_dataset context minimum fsys folder d s'));
    simpl; [done |].
  destruct (IH (final (process_dataset context minimum fsys folder d s))
              (final (process_dataset context minimum fsys folder d s')))
    as [-> ->].
  done.
Qed.

(** X17. The solid never reads the store it writes to: what a run yields,
    and whether and how it fails, is the same whatever files exist before
    it.  A file already present for a fresh table is extracted again. *)
Theorem X17_existing_files_are_not_consulted rt context datasets s s' :
  emitted (download_user_data rt context datasets s)
  = emitted (download_user_data rt context datasets s') /\
  result (download_user_data rt context datasets s)
  = result (download_user_data rt context datasets s').
Proof.
  destruct (modified_minimum rt context) as [e|minimum] eqn:Hmin.
  { unfold download_user_data, bind, lift. by rewrite Hmin. }
  destruct (from_uri rt (outputs_dir context)) as [e|[fsys folder]] eqn:Huri.
  { unfold download_user_data, bind, lift. rewrite Hmin. simpl.
    by rewrite Huri. }
  rewrite !(download_user_data_unfold _ _ _ _ _ _ _ Hmin Huri). cbn zeta.
  destruct (for_each_ignores_store context minimum fsys folder datasets s s')
    as [-> ->].
  by destruct (result _).
Qed.

(** *** Names *)

(** X18. Datasets with different identifiers never share a table or an
    output file: their table names differ, and so do their file paths
    under any output folder. *)
Theorem X18_names_do_not_collide context folder d d' :
  dataset_id d <> dataset_id d' ->
  table_name context d <> table_name context d' /\
  file_path folder d <> file_path folder d'.
Proof.
  intros Hne. split; intros H; apply Hne; f_equal.
  - by eapply table_name_inj.
  - by eapply file_path_inj.
Qed.

Lemma X18_names_do_not_collide_witness :
  table_name example_context run1_latest
  <> table_name example_context run2_latest /\
  file_path "bucket/mitx/" run1_latest <> file_path "bucket/mitx/" run2_latest.
Proof.
  apply (X18_names_do_not_collide example_context "bucket/mitx/"
           run1_latest run2_latest).
  discriminate.
Defined.

End SolidsExtra.
